(** * Transfer limits of the Sempo platform

    A shallow embedding of [app/server/utils/transfer_limits.py]: the
    eligibility checks, the limit classes, the [LIMITS] registry and
    [get_transfer_limits], followed by the properties established about
    them.

    Conventions of the embedding.
    - A Python call that may raise is a value of [result]; [Ok v] is a
      normal return and [Raise e] an exception.
    - Python's [and], [or] and [not] return one of their operands, so the
      checks return a [pyval] ([None], a bool or the sender object) and the
      callers look at its truth value ([truthy]).
    - The database session is a snapshot [Env]: the rows of the
      [credit_transfer] table and the value of [datetime.datetime.today()].
      Timestamps are integers (microseconds).
    - The balance fraction is a Python float: a binary64 number, with the
      kernel's floating-point multiplication. *)

From Stdlib Require Import ZArith QArith List String Bool Lia Floats.
Import ListNotations.

Local Open Scope string_scope.
Local Open Scope list_scope.
Local Open Scope Z_scope.

(** ** Exceptions and results *)

(** The exceptions of [server.exceptions] that the limits raise, with the
    keyword arguments they are built from (the formatted [message] string is
    left out), and the built-in errors the module can run into. *)
Inductive exn : Type :=
| AttributeError
| TypeError
| OverflowError
| ValueError
| NoTransferAllowedLimitError (token : string)
| MaximumPerTransferLimitError (maximum_amount_limit : Z) (token : string)
| MinimumSentLimitError
    (transfer_amount_limit transfer_amount_avail limit_time_period_days : Z)
    (token : string)
| TransferAmountLimitError
    (transfer_amount_limit transfer_amount_avail limit_time_period_days : Z)
    (token : string)
| TransferCountLimitError
    (transfer_count_limit limit_time_period_days : Z) (token : string)
| TransferBalanceFractionLimitError
    (transfer_balance_fraction_limit : float)
    (transfer_amount_avail limit_time_period_days : Z) (token : string).

Inductive result (A : Type) : Type :=
| Ok (a : A)
| Raise (e : exn).

Arguments Ok {A} a.
Arguments Raise {A} e.

Definition bind {A B : Type} (m : result A) (k : A -> result B) : result B :=
  match m with
  | Ok a => k a
  | Raise e => Raise e
  end.

Notation "x <- m ;; k" := (bind m (fun x => k))
  (at level 61, m at next level, right associativity).

(** ** Data model *)

(** Modelled from the spec: [server.utils.transfer_enums] is not part of the
    sources; the members are the ones the module names and the spec lists. *)
Inductive TransferTypeEnum : Type := PAYMENT | DEPOSIT | WITHDRAWAL.

Inductive TransferSubTypeEnum : Type :=
  STANDARD | AGENT_IN | AGENT_OUT | RECLAMATION.

(** Only [REJECTED] is named by the module. *)
Inductive TransferStatusEnum : Type := PENDING | REJECTED | COMPLETE.

(** Modelled from the spec: [server.models.token.TokenType]. *)
Inductive TokenType : Type := LIQUID | RESERVE.

Record Token : Type := {
  token_name : string;
  token_type : TokenType
}.

Record KycApplication : Type := {
  kyc_status : string;
  kyc_type : string;
  multiple_documents_verified : bool
}.

Record User : Type := {
  user_id : nat;
  roles : list (string * string);
  kyc_applications : list KycApplication;
  is_phone_verified : bool;
  has_group_account_role : bool
}.

Record TransferAccount : Type := {
  balance : Z
}.

Record CreditTransfer : Type := {
  id : nat;
  transfer_amount : Z;
  transfer_type : TransferTypeEnum;
  transfer_subtype : option TransferSubTypeEnum;
  transfer_status : TransferStatusEnum;
  token : option Token;
  sender_user : option User;
  recipient_user : option User;
  sender_transfer_account : option TransferAccount;
  created : Z;
  exclude_from_limit_calcs : bool
}.

Definition TransferTypeEnum_eqb (a b : TransferTypeEnum) : bool :=
  match a, b with
  | PAYMENT, PAYMENT | DEPOSIT, DEPOSIT | WITHDRAWAL, WITHDRAWAL => true
  | _, _ => false
  end.

Definition TransferSubTypeEnum_eqb (a b : TransferSubTypeEnum) : bool :=
  match a, b with
  | STANDARD, STANDARD | AGENT_IN, AGENT_IN
  | AGENT_OUT, AGENT_OUT | RECLAMATION, RECLAMATION => true
  | _, _ => false
  end.

Definition TransferStatusEnum_eqb (a b : TransferStatusEnum) : bool :=
  match a, b with
  | PENDING, PENDING | REJECTED, REJECTED | COMPLETE, COMPLETE => true
  | _, _ => false
  end.

Definition TokenType_eqb (a b : TokenType) : bool :=
  match a, b with
  | LIQUID, LIQUID | RESERVE, RESERVE => true
  | _, _ => false
  end.

Definition subtype_eqb (a b : option TransferSubTypeEnum) : bool :=
  match a, b with
  | Some x, Some y => TransferSubTypeEnum_eqb x y
  | None, None => true
  | _, _ => false
  end.

(** [CreditTransfer.sender_user == u] compares the foreign key with the
    primary key of [u] ([IS NULL] when [u] is [None]). *)
Definition user_eqb (a b : option User) : bool :=
  match a, b with
  | Some x, Some y => Nat.eqb (user_id x) (user_id y)
  | None, None => true
  | _, _ => false
  end.

(** An entry of [applied_to_transfer_types]: a type, or a (type, subtype)
    tuple.  A raw entry may also be a two-element list, which
    [BaseTransferLimit.__init__] turns into a tuple. *)
Inductive AppliedToType : Type :=
| OfType (t : TransferTypeEnum)
| OfPair (t : TransferTypeEnum) (s : TransferSubTypeEnum).

Inductive RawAppliedToType : Type :=
| RawType (t : TransferTypeEnum)
| RawTuple (t : TransferTypeEnum) (s : TransferSubTypeEnum)
| RawList (t : TransferTypeEnum) (s : TransferSubTypeEnum).

Definition STANDARD_PAYMENT := RawTuple PAYMENT STANDARD.
Definition AGENT_OUT_PAYMENT := RawTuple PAYMENT AGENT_OUT.
Definition AGENT_IN_PAYMENT := RawTuple PAYMENT AGENT_IN.
Definition RECLAMATION_PAYMENT := RawTuple PAYMENT RECLAMATION.

Definition GENERAL_PAYMENTS : list RawAppliedToType :=
  [STANDARD_PAYMENT; AGENT_OUT_PAYMENT; AGENT_IN_PAYMENT; RECLAMATION_PAYMENT].

(** ** Python values returned by the checks *)

Inductive pyval : Type :=
| VNone
| VBool (b : bool)
| VUser (u : User).

Definition truthy (v : pyval) : bool :=
  match v with
  | VNone => false
  | VBool b => b
  | VUser _ => true
  end.

(** [a and b]: [a] when it is falsy, otherwise [b]. *)
Definition py_and (a b : result pyval) : result pyval :=
  v <- a ;; if truthy v then b else Ok v.

(** [a or b]: [a] when it is truthy, otherwise [b]. *)
Definition py_or (a b : result pyval) : result pyval :=
  v <- a ;; if truthy v then Ok v else b.

Definition py_not (a : result pyval) : result pyval :=
  v <- a ;; Ok (VBool (negb (truthy v))).

Definition of_option_user (u : option User) : pyval :=
  match u with
  | Some x => VUser x
  | None => VNone
  end.

(** [int(x)] for a number [x]: truncation towards zero. *)
Definition py_int (q : Q) : Z := Z.quot (Qnum q) (Zpos (Qden q)).

Definition combine_filter_lists {A : Type} (filter_lists : list (list A)) : list A :=
  fold_left (fun f i => (f ++ i)%list) filter_lists [].

(** The [config] module is not part of the sources: the two settings the
    limits read are taken as given.  [TRANSFER_LIMITS] is looked up by key. *)
Record Config : Type := {
  LIMIT_EXCHANGE_RATE : Q;
  TRANSFER_LIMITS : string -> Q
}.

Section Checks.

(** [AccessControl.has_sufficient_tier(held_roles, role, tier)] lives in
    [server.utils.access_control], outside the sources; it is taken as a
    total boolean function. *)
Variable has_sufficient_tier : list (string * string) -> string -> string -> bool.

(** *** Simple checks *)

Definition sempo_admin_involved (credit_transfer : CreditTransfer) : result pyval :=
  if match recipient_user credit_transfer with
     | Some u => has_sufficient_tier (roles u) "ADMIN" "sempoadmin"
     | None => false
     end
  then Ok (VBool true)
  else
    if match sender_user credit_transfer with
       | Some u => has_sufficient_tier (roles u) "ADMIN" "sempoadmin"
       | None => false
       end
    then Ok (VBool true)
    else Ok (VBool false).

Definition sender_user_exists (credit_transfer : CreditTransfer) : result pyval :=
  Ok (of_option_user (sender_user credit_transfer)).

(** Attribute access on [credit_transfer.sender_user]: an [AttributeError]
    when the sender is [None]. *)
Definition sender_attr {A : Type} (f : User -> A) (credit_transfer : CreditTransfer)
  : result A :=
  match sender_user credit_transfer with
  | Some u => Ok (f u)
  | None => Raise AttributeError
  end.

Definition user_has_group_account_role (credit_transfer : CreditTransfer) : result pyval :=
  b <- sender_attr has_group_account_role credit_transfer ;; Ok (VBool b).

Definition user_phone_is_verified (credit_transfer : CreditTransfer) : result pyval :=
  b <- sender_attr is_phone_verified credit_transfer ;; Ok (VBool b).

Definition _sender_matches_kyc_criteria (credit_transfer : CreditTransfer)
    (criteria : KycApplication -> bool) : result pyval :=
  match sender_user credit_transfer with
  | Some u =>
      let matches_criteria := find criteria (kyc_applications u) in
      Ok (VBool (match matches_criteria with Some _ => true | None => false end))
  | None => Ok (VBool false)
  end.

Definition user_individual_kyc_is_verified (credit_transfer : CreditTransfer)
  : result pyval :=
  _sender_matches_kyc_criteria credit_transfer
    (fun app => String.eqb (kyc_status app) "VERIFIED"
                && String.eqb (kyc_type app) "INDIVIDUAL"
                && negb (multiple_documents_verified app)).

Definition user_business_or_multidoc_kyc_verified (credit_transfer : CreditTransfer)
  : result pyval :=
  _sender_matches_kyc_criteria credit_transfer
    (fun app => String.eqb (kyc_status app) "VERIFIED"
                && (String.eqb (kyc_type app) "BUSINESS"
                    || multiple_documents_verified app)).

Definition token_is_liquid_type (credit_transfer : CreditTransfer) : result pyval :=
  match token credit_transfer with
  | Some tok => Ok (VBool (TokenType_eqb (token_type tok) LIQUID))
  | None => Ok VNone
  end.

Definition token_is_reserve_type (credit_transfer : CreditTransfer) : result pyval :=
  match token credit_transfer with
  | Some tok => Ok (VBool (TokenType_eqb (token_type tok) RESERVE))
  | None => Ok VNone
  end.

Definition transfer_is_agent_out_subtype (credit_transfer : CreditTransfer)
  : result pyval :=
  Ok (VBool (subtype_eqb (transfer_subtype credit_transfer) (Some AGENT_OUT))).

(** *** Composite checks *)

Definition base_check (credit_transfer : CreditTransfer) : result pyval :=
  py_and (sender_user_exists credit_transfer)
         (py_not (sempo_admin_involved credit_transfer)).

Definition is_user_and_any_token (credit_transfer : CreditTransfer) : result pyval :=
  py_and (base_check credit_transfer)
         (py_or (token_is_reserve_type credit_transfer)
                (token_is_liquid_type credit_transfer)).

Definition is_user_and_liquid_token (credit_transfer : CreditTransfer) : result pyval :=
  py_and (py_and (base_check credit_transfer) (token_is_liquid_type credit_transfer))
         (py_not (user_has_group_account_role credit_transfer)).

Definition is_group_and_liquid_token (credit_transfer : CreditTransfer) : result pyval :=
  py_and (py_and (base_check credit_transfer) (token_is_liquid_type credit_transfer))
         (user_has_group_account_role credit_transfer).

Definition is_any_token_and_user_is_not_phone_and_not_kyc_verified
    (credit_transfer : CreditTransfer) : result pyval :=
  py_and (py_and (is_user_and_any_token credit_transfer)
                 (py_not (user_phone_is_verified credit_transfer)))
         (py_not (user_individual_kyc_is_verified credit_transfer)).

Definition is_any_token_and_user_is_phone_but_not_kyc_verified
    (credit_transfer : CreditTransfer) : result pyval :=
  py_and (py_and (is_user_and_any_token credit_transfer)
                 (user_phone_is_verified credit_transfer))
         (py_not (py_or (user_individual_kyc_is_verified credit_transfer)
                        (user_business_or_multidoc_kyc_verified credit_transfer))).

Definition is_any_token_and_user_is_kyc_verified (credit_transfer : CreditTransfer)
  : result pyval :=
  py_and (is_user_and_any_token credit_transfer)
         (user_individual_kyc_is_verified credit_transfer).

Definition is_any_token_and_user_is_kyc_business_verified
    (credit_transfer : CreditTransfer) : result pyval :=
  py_and (is_user_and_any_token credit_transfer)
         (user_business_or_multidoc_kyc_verified credit_transfer).

End Checks.

(** ** The transfer history and the limit filters *)

(** A snapshot of what the session sees during one validation: the rows of
    the [credit_transfer] table (queries run with [show_all=True], so no
    row is hidden) and the current time. *)
Record Env : Type := {
  table : list CreditTransfer;
  today : Z
}.

(** A filter expression over the columns of [CreditTransfer]. *)
Definition Condition : Type := CreditTransfer -> bool.

Definition AggregationFilter : Type := CreditTransfer -> list Condition.

Definition timedelta (days : Z) : Z := days * 86400000000.

Definition after_time_period_filter (env : Env) (days : Z) : list Condition :=
  let epoch := today env - timedelta days in
  [fun row => created row >=? epoch].

Definition matching_sender_user_filter (transfer : CreditTransfer) : list Condition :=
  [fun row => user_eqb (sender_user row) (sender_user transfer)].

Definition regular_payment_filter (transfer : CreditTransfer) : list Condition :=
  [fun row => subtype_eqb (transfer_subtype row) (Some STANDARD)].

Definition matching_transfer_type_filter (transfer : CreditTransfer) : list Condition :=
  [fun row => TransferTypeEnum_eqb (transfer_type row) (transfer_type transfer)].

Definition matching_transfer_type_and_subtype_filter (transfer : CreditTransfer)
  : list Condition :=
  [fun row => TransferTypeEnum_eqb (transfer_type row) (transfer_type transfer);
   fun row => subtype_eqb (transfer_subtype row) (transfer_subtype transfer)].

Definition withdrawal_or_agent_out_and_not_excluded_filter (transfer : CreditTransfer)
  : list Condition :=
  [fun row => TransferTypeEnum_eqb (transfer_type row) WITHDRAWAL
              || subtype_eqb (transfer_subtype row) (Some AGENT_OUT);
   fun row => Bool.eqb (exclude_from_limit_calcs row) false].

Definition not_rejected_filter : list Condition :=
  [fun row => negb (TransferStatusEnum_eqb (transfer_status row) REJECTED)].

(** *** Queries *)

Inductive Aggregate : Type :=
| func_sum_transfer_amount
| func_count_id.

Record Query : Type := {
  selected : Aggregate;
  whereclause : list Condition
}.

Definition session_query (a : Aggregate) : Query :=
  {| selected := a; whereclause := [] |}.

Definition Query_filter (q : Query) (conds : list Condition) : Query :=
  {| selected := selected q; whereclause := (whereclause q ++ conds)%list |}.

Definition QueryConstructorFunc : Type := CreditTransfer -> Query -> Query.

Definition sum_Z (l : list Z) : Z := fold_right Z.add 0 l.

(** SQL [SUM]: [NULL] over no row at all. *)
Definition sql_sum (l : list Z) : option Z :=
  match l with
  | [] => None
  | _ => Some (sum_Z l)
  end.

Definition matching_rows (env : Env) (conds : list Condition) : list CreditTransfer :=
  filter (fun row => forallb (fun c => c row) conds) (table env).

(** [query.first().total] or [query.first().count]: the single row of an
    aggregate query; [None] stands for SQL [NULL]. *)
Definition Query_first (env : Env) (q : Query) : option Z :=
  let rows := matching_rows env (whereclause q) in
  match selected q with
  | func_sum_transfer_amount => sql_sum (map transfer_amount rows)
  | func_count_id => Some (Z.of_nat (List.length rows))
  end.

(** ** Limits *)

(** The subclasses of [AggregateLimit], with the attributes each adds. *)
Inductive AggregateClass : Type :=
| TotalAmountLimit (_total_amount : Z)
| MinimumSentLimit (minimum_sent_aggregation_filter : AggregationFilter)
| BalanceFractionLimit (balance_fraction : float)
| TransferCountLimit (transfer_count : Z).

(** The concrete subclasses of [BaseTransferLimit]. *)
Inductive LimitClass : Type :=
| NoTransferAllowedLimit
| MaximumAmountPerTransferLimit (maximum_amount : Z)
| AggregateLimit (time_period_days : Z)
                 (custom_aggregation_filter : AggregationFilter)
                 (cls : AggregateClass).

Record Limit : Type := {
  name : string;
  applied_to_transfer_types : list AppliedToType;
  application_filter : CreditTransfer -> result pyval;
  class : LimitClass
}.

(** *** Constructors ([__init__]) *)

(** [tuple(t) if isinstance(t, list) else t]. *)
Definition force_tuple (t : RawAppliedToType) : AppliedToType :=
  match t with
  | RawType ty => OfType ty
  | RawTuple ty sub => OfPair ty sub
  | RawList ty sub => OfPair ty sub
  end.

Definition BaseTransferLimit_init (name : string)
    (applied_to_transfer_types : list RawAppliedToType)
    (application_filter : CreditTransfer -> result pyval)
    (class : LimitClass) : Limit :=
  {| name := name;
     applied_to_transfer_types := map force_tuple applied_to_transfer_types;
     application_filter := application_filter;
     class := class |}.

Section Constructors.

Variable config : Config.

Definition new_NoTransferAllowedLimit name applied_to_transfer_types application_filter
  : Limit :=
  BaseTransferLimit_init name applied_to_transfer_types application_filter
    NoTransferAllowedLimit.

Definition new_MaximumAmountPerTransferLimit name applied_to_transfer_types
    application_filter (maximum_amount : Q) : Limit :=
  BaseTransferLimit_init name applied_to_transfer_types application_filter
    (MaximumAmountPerTransferLimit
       (py_int (maximum_amount * LIMIT_EXCHANGE_RATE config)%Q)).

Definition AggregateLimit_init name applied_to_transfer_types application_filter
    (time_period_days : Z) (aggregation_filter : AggregationFilter)
    (cls : AggregateClass) : Limit :=
  BaseTransferLimit_init name applied_to_transfer_types application_filter
    (AggregateLimit time_period_days aggregation_filter cls).

Definition new_TotalAmountLimit name applied_to_transfer_types application_filter
    (time_period_days : Z) (total_amount : Q)
    (aggregation_filter : AggregationFilter) : Limit :=
  AggregateLimit_init name applied_to_transfer_types application_filter
    time_period_days aggregation_filter
    (TotalAmountLimit (py_int (total_amount * LIMIT_EXCHANGE_RATE config)%Q)).

Definition new_MinimumSentLimit name applied_to_transfer_types application_filter
    (time_period_days : Z) (aggregation_filter : AggregationFilter)
    (minimum_sent_aggregation_filter : AggregationFilter) : Limit :=
  AggregateLimit_init name applied_to_transfer_types application_filter
    time_period_days aggregation_filter
    (MinimumSentLimit minimum_sent_aggregation_filter).

Definition new_BalanceFractionLimit name applied_to_transfer_types application_filter
    (time_period_days : Z) (balance_fraction : float)
    (aggregation_filter : AggregationFilter) : Limit :=
  AggregateLimit_init name applied_to_transfer_types application_filter
    time_period_days aggregation_filter
    (BalanceFractionLimit balance_fraction).

Definition new_TransferCountLimit name applied_to_transfer_types application_filter
    (time_period_days : Z) (transfer_count : Z)
    (aggregation_filter : AggregationFilter) : Limit :=
  AggregateLimit_init name applied_to_transfer_types application_filter
    time_period_days aggregation_filter
    (TransferCountLimit transfer_count).

End Constructors.

(** *** Methods *)

Section Methods.

Variable env : Env.

(** Attribute access on [transfer.token] and on
    [transfer.sender_transfer_account]. *)
Definition token_attr {A : Type} (f : Token -> A) (transfer : CreditTransfer)
  : result A :=
  match token transfer with
  | Some tok => Ok (f tok)
  | None => Raise AttributeError
  end.

Definition sender_transfer_account_attr {A : Type} (f : TransferAccount -> A)
    (transfer : CreditTransfer) : result A :=
  match sender_transfer_account transfer with
  | Some acct => Ok (f acct)
  | None => Raise AttributeError
  end.

(** [AggregateLimit.query_constructor_filter_specifiable] *)
Definition query_constructor_filter_specifiable (time_period_days : Z)
    (transfer : CreditTransfer) (base_query : Query)
    (custom_filter : AggregationFilter) : Query :=
  let filter_list :=
    combine_filter_lists
      [ matching_sender_user_filter transfer;
        not_rejected_filter;
        after_time_period_filter env time_period_days;
        custom_filter transfer ] in
  Query_filter base_query filter_list.

(** [AggregateLimit.query_constructor] *)
Definition query_constructor (time_period_days : Z)
    (custom_aggregation_filter : AggregationFilter) : QueryConstructorFunc :=
  fun transfer base_query =>
    query_constructor_filter_specifiable time_period_days transfer base_query
      custom_aggregation_filter.

(** [AggregateTransferAmountMixin.used_aggregator]: [None - int] is a
    [TypeError]. *)
Definition AggregateTransferAmountMixin_used_aggregator (transfer : CreditTransfer)
    (query_constructor : QueryConstructorFunc) : result Z :=
  match Query_first env
          (query_constructor transfer (session_query func_sum_transfer_amount)) with
  | Some total => Ok (total - transfer_amount transfer)
  | None => Raise TypeError
  end.

(** [TransferCountLimit.used_aggregator] *)
Definition TransferCountLimit_used_aggregator (transfer : CreditTransfer)
    (query_constructor : QueryConstructorFunc) : result Z :=
  match Query_first env
          (query_constructor transfer (session_query func_count_id)) with
  | Some count => Ok (count - 1)
  | None => Raise TypeError
  end.

Definition used_aggregator (cls : AggregateClass) (transfer : CreditTransfer)
    (query_constructor : QueryConstructorFunc) : result Z :=
  match cls with
  | TotalAmountLimit _ | MinimumSentLimit _ | BalanceFractionLimit _ =>
      AggregateTransferAmountMixin_used_aggregator transfer query_constructor
  | TransferCountLimit _ =>
      TransferCountLimit_used_aggregator transfer query_constructor
  end.

(** [float(n)] for an integer [n], as the product of a float and an integer
    converts it: the nearest binary64 number, ties to even; an
    [OverflowError] when [n] is too large for a float. *)
Definition float_of_int (n : Z) : result float :=
  match binary_normalize 53 1024 n 0 false with
  | S754_infinity _ | S754_nan => Raise OverflowError
  | x => Ok (SF2Prim x)
  end.

(** [int(x)] for a float [x]: the integer part, exactly; [ValueError] for a
    NaN and [OverflowError] for an infinity. *)
Definition int_of_float (x : float) : result Z :=
  match Prim2SF x with
  | S754_zero _ => Ok 0
  | S754_finite negative m e =>
      let magnitude :=
        match e with
        | Z0 => Zpos m
        | Zpos p => Zpos m * 2 ^ Zpos p
        | Zneg p => Zpos m / 2 ^ Zpos p
        end in
      Ok (if negative then - magnitude else magnitude)
  | S754_infinity _ => Raise OverflowError
  | S754_nan => Raise ValueError
  end.

(** [BalanceFractionLimit._total_from_balance]:
    [int(self.balance_fraction * balance)]. *)
Definition _total_from_balance (balance_fraction : float) (balance : Z) : result Z :=
  b <- float_of_int balance ;;
  int_of_float (balance_fraction * b)%float.

(** [MinimumSentLimit.available_base]: [total or 0]. *)
Definition MinimumSentLimit_available_base (time_period_days : Z)
    (minimum_sent_aggregation_filter : AggregationFilter)
    (transfer : CreditTransfer) : Z :=
  match Query_first env
          (query_constructor_filter_specifiable time_period_days transfer
             (session_query func_sum_transfer_amount)
             minimum_sent_aggregation_filter) with
  | Some total => if total =? 0 then 0 else total
  | None => 0
  end.

Definition available_base (time_period_days : Z) (cls : AggregateClass)
    (transfer : CreditTransfer) : result Z :=
  match cls with
  | TotalAmountLimit _total_amount => Ok _total_amount
  | MinimumSentLimit minimum_sent_aggregation_filter =>
      Ok (MinimumSentLimit_available_base time_period_days
            minimum_sent_aggregation_filter transfer)
  | BalanceFractionLimit balance_fraction =>
      b <- sender_transfer_account_attr balance transfer ;;
      _total_from_balance balance_fraction b
  | TransferCountLimit transfer_count => Ok transfer_count
  end.

Definition available (self : Limit) (transfer : CreditTransfer) : result Z :=
  match class self with
  | NoTransferAllowedLimit => Ok 0
  | MaximumAmountPerTransferLimit maximum_amount => Ok maximum_amount
  | AggregateLimit time_period_days custom_aggregation_filter cls =>
      base <- available_base time_period_days cls transfer ;;
      used <- used_aggregator cls transfer
                (query_constructor time_period_days custom_aggregation_filter) ;;
      Ok (base - used)
  end.

Definition case_will_use (self : Limit) (transfer : CreditTransfer) : Z :=
  match class self with
  | NoTransferAllowedLimit => 1
  | MaximumAmountPerTransferLimit _ => transfer_amount transfer
  | AggregateLimit _ _ (TransferCountLimit _) => 1
  | AggregateLimit _ _ _ => transfer_amount transfer
  end.

(** Always raises: the limit's own error, or the [AttributeError] of
    [transfer.token.name] when the transfer has no token. *)
Definition throw_validation_error (self : Limit) (transfer : CreditTransfer)
    (available : Z) : result unit :=
  match class self with
  | NoTransferAllowedLimit =>
      tok <- token_attr token_name transfer ;;
      Raise (NoTransferAllowedLimitError tok)
  | MaximumAmountPerTransferLimit maximum_amount =>
      tok <- token_attr token_name transfer ;;
      Raise (MaximumPerTransferLimitError maximum_amount tok)
  | AggregateLimit time_period_days _ cls =>
      match cls with
      | TotalAmountLimit _ =>
          limit <- available_base time_period_days cls transfer ;;
          tok <- token_attr token_name transfer ;;
          Raise (TransferAmountLimitError limit available time_period_days tok)
      | MinimumSentLimit _ =>
          limit <- available_base time_period_days cls transfer ;;
          tok <- token_attr token_name transfer ;;
          Raise (MinimumSentLimitError limit available time_period_days tok)
      | BalanceFractionLimit balance_fraction =>
          tok <- token_attr token_name transfer ;;
          Raise (TransferBalanceFractionLimitError balance_fraction available
                   time_period_days tok)
      | TransferCountLimit transfer_count =>
          tok <- token_attr token_name transfer ;;
          Raise (TransferCountLimitError transfer_count time_period_days tok)
      end
  end.

(** [BaseTransferLimit.validate_transfer] *)
Definition validate_transfer (self : Limit) (transfer : CreditTransfer) : result unit :=
  available <- available self transfer ;;
  if available <? case_will_use self transfer
  then throw_validation_error self transfer available
  else Ok tt.

End Methods.

(** [x in self.applied_to_transfer_types] for a transfer type [x]: an enum
    member equals only itself, never a tuple. *)
Definition type_in (x : TransferTypeEnum) (l : list AppliedToType) : bool :=
  existsb (fun e => match e with
                    | OfType t => TransferTypeEnum_eqb x t
                    | OfPair _ _ => false
                    end) l.

(** [(x, y) in self.applied_to_transfer_types]: a tuple equals only a tuple
    with equal components. *)
Definition pair_in (x : TransferTypeEnum) (y : option TransferSubTypeEnum)
    (l : list AppliedToType) : bool :=
  existsb (fun e => match e with
                    | OfType _ => false
                    | OfPair t s => TransferTypeEnum_eqb x t && subtype_eqb y (Some s)
                    end) l.

(** [BaseTransferLimit.applies_to_transfer] *)
Definition applies_to_transfer (self : Limit) (transfer : CreditTransfer) : result pyval :=
  py_and
    (Ok (VBool (type_in (transfer_type transfer) (applied_to_transfer_types self)
                || pair_in (transfer_type transfer) (transfer_subtype transfer)
                     (applied_to_transfer_types self))))
    (application_filter self transfer).

(** ** The registry *)

(** [[x for x in xs if f(x)]] where [f] may raise. *)
Fixpoint comprehension {A : Type} (f : A -> result pyval) (xs : list A)
  : result (list A) :=
  match xs with
  | [] => Ok []
  | x :: rest =>
      v <- f x ;;
      kept <- comprehension f rest ;;
      Ok (if truthy v then x :: kept else kept)
  end.

Section Registry.

Variable has_sufficient_tier : list (string * string) -> string -> string -> bool.
Variable config : Config.

Definition LIMITS : list Limit :=
  [ new_TotalAmountLimit config "Sempo Level 0: P7" GENERAL_PAYMENTS
      (is_any_token_and_user_is_not_phone_and_not_kyc_verified has_sufficient_tier)
      7 (TRANSFER_LIMITS config "0.P7") matching_transfer_type_filter;
    new_TotalAmountLimit config "Sempo Level 0: P30" GENERAL_PAYMENTS
      (is_any_token_and_user_is_not_phone_and_not_kyc_verified has_sufficient_tier)
      30 (TRANSFER_LIMITS config "0.P30") matching_transfer_type_filter;

    new_NoTransferAllowedLimit "Sempo Level 0: WD30"
      [RawType WITHDRAWAL; RawType DEPOSIT]
      (is_any_token_and_user_is_not_phone_and_not_kyc_verified has_sufficient_tier);

    new_TotalAmountLimit config "Sempo Level 1: P7" GENERAL_PAYMENTS
      (is_any_token_and_user_is_phone_but_not_kyc_verified has_sufficient_tier)
      7 (TRANSFER_LIMITS config "1.P7") matching_transfer_type_filter;
    new_TotalAmountLimit config "Sempo Level 1: P30" GENERAL_PAYMENTS
      (is_any_token_and_user_is_phone_but_not_kyc_verified has_sufficient_tier)
      30 (TRANSFER_LIMITS config "1.P30") matching_transfer_type_filter;
    new_NoTransferAllowedLimit "Sempo Level 1: WD30"
      [RawType WITHDRAWAL; RawType DEPOSIT]
      (is_any_token_and_user_is_phone_but_not_kyc_verified has_sufficient_tier);

    new_TotalAmountLimit config "Sempo Level 2: P7" GENERAL_PAYMENTS
      (is_any_token_and_user_is_kyc_verified has_sufficient_tier)
      7 (TRANSFER_LIMITS config "2.P7") matching_transfer_type_filter;
    new_TotalAmountLimit config "Sempo Level 2: P30" GENERAL_PAYMENTS
      (is_any_token_and_user_is_kyc_verified has_sufficient_tier)
      30 (TRANSFER_LIMITS config "2.P30") matching_transfer_type_filter;
    new_TotalAmountLimit config "Sempo Level 2: WD7"
      [RawType WITHDRAWAL; RawType DEPOSIT]
      (is_any_token_and_user_is_kyc_verified has_sufficient_tier)
      7 (TRANSFER_LIMITS config "2.WD7") matching_transfer_type_filter;
    new_TotalAmountLimit config "Sempo Level 2: WD30"
      [RawType WITHDRAWAL; RawType DEPOSIT]
      (is_any_token_and_user_is_kyc_verified has_sufficient_tier)
      30 (TRANSFER_LIMITS config "2.WD30") matching_transfer_type_filter;

    new_TotalAmountLimit config "Sempo Level 3: P7" GENERAL_PAYMENTS
      (is_any_token_and_user_is_kyc_business_verified has_sufficient_tier)
      7 (TRANSFER_LIMITS config "3.P7") matching_transfer_type_filter;
    new_TotalAmountLimit config "Sempo Level 3: P30" GENERAL_PAYMENTS
      (is_any_token_and_user_is_kyc_business_verified has_sufficient_tier)
      30 (TRANSFER_LIMITS config "3.P30") matching_transfer_type_filter;
    new_TotalAmountLimit config "Sempo Level 3: WD7"
      [RawType WITHDRAWAL; RawType DEPOSIT]
      (is_any_token_and_user_is_kyc_business_verified has_sufficient_tier)
      7 (TRANSFER_LIMITS config "3.WD7") matching_transfer_type_filter;
    new_TotalAmountLimit config "Sempo Level 3: WD30"
      [RawType WITHDRAWAL; RawType DEPOSIT]
      (is_any_token_and_user_is_kyc_business_verified has_sufficient_tier)
      30 (TRANSFER_LIMITS config "3.WD30") matching_transfer_type_filter;

    new_NoTransferAllowedLimit "GE Liquid Token - Standard User"
      [AGENT_OUT_PAYMENT; RawType WITHDRAWAL]
      (is_user_and_liquid_token has_sufficient_tier);

    new_TransferCountLimit "GE Liquid Token - Group Account User"
      [AGENT_OUT_PAYMENT; RawType WITHDRAWAL]
      (is_group_and_liquid_token has_sufficient_tier) 30 1
      withdrawal_or_agent_out_and_not_excluded_filter;

    new_BalanceFractionLimit "GE Liquid Token - Group Account User"
      [AGENT_OUT_PAYMENT; RawType WITHDRAWAL]
      (is_group_and_liquid_token has_sufficient_tier) 30 0.5%float
      withdrawal_or_agent_out_and_not_excluded_filter;

    new_MinimumSentLimit "GE Liquid Token - Group Account User"
      [AGENT_OUT_PAYMENT; RawType WITHDRAWAL]
      (is_group_and_liquid_token has_sufficient_tier) 30
      withdrawal_or_agent_out_and_not_excluded_filter
      regular_payment_filter;

    new_MaximumAmountPerTransferLimit config "GE Liquid Token - Group Account User"
      [AGENT_OUT_PAYMENT; RawType WITHDRAWAL]
      (is_group_and_liquid_token has_sufficient_tier) (TRANSFER_LIMITS config "LT.MaxAm") ].

Definition get_transfer_limits (transfer : CreditTransfer) : result (list Limit) :=
  comprehension (fun limit => applies_to_transfer limit transfer) LIMITS.

End Registry.

(** ** Argument handling of the search endpoint

    The first part of [SearchAPI.get] in [app/server/api/search_api.py]
    (up to the choice of the order function): what it makes of the query
    string before any query is built.  The rest of the method talks to the
    database and is not modelled. *)

Module SearchAPI.

(** [s.replace(old, new)] for a non-empty [old]: the occurrences of [old]
    are replaced left to right, [skip] counting the characters of an
    occurrence still to be dropped. *)
Fixpoint replace_from (old new : string) (skip : nat) (s : string) : string :=
  match s with
  | EmptyString => EmptyString
  | String c rest =>
      match skip with
      | S k => replace_from old new k rest
      | O =>
          if String.prefix old s
          then (new ++ replace_from old new (String.length old - 1) rest)%string
          else String c (replace_from old new 0 rest)
      end
  end.

Definition replace (old new s : string) : string := replace_from old new 0 s.

(** [x in l] for strings. *)
Definition str_in (x : string) (l : list string) : bool :=
  existsb (String.eqb x) l.

(** [request.args.get(key) or default]: a missing or empty argument gives
    the default. *)
Definition arg_or (args : string -> option string) (key default : string) : string :=
  match args key with
  | Some EmptyString | None => default
  | Some v => v
  end.

(** The values of [sort_types_to_database_types]: a column name of the
    search view, or a column of a model. *)
Inductive DatabaseType : Type :=
| ViewColumn (column : string)
| ModelColumn (model column : string).

Definition sort_types_to_database_types : list (string * DatabaseType) :=
  [ ("first_name", ViewColumn "first_name");
    ("last_name", ViewColumn "first_name");
    ("email", ViewColumn "first_name");
    ("date_account_created", ViewColumn "created");
    ("rank", ViewColumn "rank");
    ("balance", ModelColumn "TransferAccount" "_balance_wei");
    ("status", ModelColumn "TransferAccount" "is_approved");
    ("amount", ModelColumn "CreditTransfer" "transfer_amount");
    ("transfer_type", ModelColumn "CreditTransfer" "transfer_type");
    ("approval", ModelColumn "CreditTransfer" "transfer_status");
    ("date_transaction_created", ModelColumn "CreditTransfer" "resolved_date") ].

(** [d[key]]: [None] stands for the [KeyError] of a missing key. *)
Fixpoint getitem {V : Type} (d : list (string * V)) (key : string) : option V :=
  match d with
  | [] => None
  | (k, v) :: rest => if String.eqb k key then Some v else getitem rest key
  end.

Definition user_sorting_options : list string :=
  ["first_name"; "last_name"; "email"; "date_account_created"].

Definition sender_sorting_options : list string :=
  map (fun s => ("sender_" ++ s)%string) user_sorting_options.

Definition recipient_sorting_options : list string :=
  map (fun s => ("recipient_" ++ s)%string) user_sorting_options.

Definition sorting_options : list (string * list string) :=
  [ ("transfer_accounts", user_sorting_options ++ ["rank"; "balance"; "status"]);
    ("credit_transfers",
     sender_sorting_options ++ recipient_sorting_options
     ++ ["rank"; "amount"; "transfer_type"; "approval";
         "date_transaction_created"]) ].

Inductive Order : Type := desc | asc.

(** Where argument handling ends: a 400 response with its message, a
    [KeyError], or the values the rest of the method works with. *)
Inductive Handled : Type :=
| BadRequest (message : string)
| KeyError
| Proceed (search_string search_type sort_by_arg : string)
          (sort_by : DatabaseType) (order : Order).

Definition quoted (a : string) : string := ("'" ++ a ++ "'")%string.

Definition handle_arguments (args : string -> option string) : Handled :=
  let search_string := arg_or args "search_string" EmptyString in
  let search_type := arg_or args "search_type" "transfer_accounts" in
  if negb (str_in search_type ["transfer_accounts"; "credit_transfers"])
  then BadRequest
         ("Invalid search_type " ++ quoted search_type
          ++ ". Please use type 'transfer_accounts' or 'credit_transfers'")%string
  else
    let sort_by_arg := arg_or args "sort_by" "rank" in
    match getitem sorting_options search_type with
    | None => KeyError
    | Some options =>
        if negb (str_in sort_by_arg options)
        then BadRequest
               ("Invalid sort_by value " ++ quoted sort_by_arg
                ++ ". Please use one of the following: "
                ++ String.concat ", " (map quoted options))%string
        else
          match getitem sort_types_to_database_types
                  (replace "recipient_" EmptyString
                     (replace "sender_" EmptyString sort_by_arg)) with
          | None => KeyError
          | Some sort_by =>
              let order_arg := arg_or args "order" "DESC" in
              if negb (str_in order_arg ["ASC"; "DESC"])
              then BadRequest
                     ("Invalid order value " ++ quoted order_arg
                      ++ ". Please use 'ASC' or 'DESC'")%string
              else
                Proceed search_string search_type sort_by_arg sort_by
                  (if String.eqb order_arg "ASC" then asc else desc)
          end
    end.

End SearchAPI.

(** A query string as a function of the argument name. *)
Definition query_string (pairs : list (string * string)) : string -> option string :=
  SearchAPI.getitem pairs.

(** ** Sample data *)

(** An implementation of the tier test used by the examples: the user holds
    exactly the given tier of the given role. *)
Definition holds_tier (held : list (string * string)) (role tier : string) : bool :=
  existsb (fun p => String.eqb (fst p) role && String.eqb (snd p) tier) held.

Definition demo_config : Config :=
  {| LIMIT_EXCHANGE_RATE := 1; TRANSFER_LIMITS := fun _ => inject_Z 5000 |}.

Definition foo_token : Token := {| token_name := "FOO"; token_type := LIQUID |}.

Definition reserve_token : Token := {| token_name := "RSV"; token_type := RESERVE |}.

Definition new_user (uid : nat) (held : list (string * string))
    (apps : list KycApplication) (phone group : bool) : User :=
  {| user_id := uid; roles := held; kyc_applications := apps;
     is_phone_verified := phone; has_group_account_role := group |}.

Definition individual_kyc : KycApplication :=
  {| kyc_status := "VERIFIED"; kyc_type := "INDIVIDUAL";
     multiple_documents_verified := false |}.

Definition business_kyc : KycApplication :=
  {| kyc_status := "VERIFIED"; kyc_type := "BUSINESS";
     multiple_documents_verified := false |}.

Definition admin_user : User := new_user 1 [("ADMIN", "sempoadmin")] [] true false.

Definition plain_user : User := new_user 2 [] [] false false.

Definition phone_user : User := new_user 3 [] [] true false.

Definition group_user : User := new_user 4 [] [] true true.

Definition individual_user : User := new_user 5 [] [individual_kyc] true false.

Definition both_kyc_user : User := new_user 6 [] [individual_kyc; business_kyc] true false.

Definition business_user_without_phone : User := new_user 7 [] [business_kyc] false false.

Definition new_transfer (i : nat) (amount : Z) (ty : TransferTypeEnum)
    (sub : option TransferSubTypeEnum) (st : TransferStatusEnum)
    (tok : option Token) (sender : option User) (bal : Z) (at_time : Z)
  : CreditTransfer :=
  {| id := i; transfer_amount := amount; transfer_type := ty;
     transfer_subtype := sub; transfer_status := st; token := tok;
     sender_user := sender; recipient_user := None;
     sender_transfer_account := Some {| balance := bal |};
     created := at_time; exclude_from_limit_calcs := false |}.

(** A moment taken as "now" by the examples, and a number of days before
    it. *)
Definition noon : Z := timedelta 1000.

Definition days_ago (d : Z) : Z := noon - timedelta d.

(** A week of payments by [phone_user]: 300 two days ago, 900 ten days
    ago, and the payment under validation (row 3), whose amount varies. *)
Definition week_payment (amount : Z) : CreditTransfer :=
  new_transfer 3 amount PAYMENT (Some STANDARD) PENDING (Some reserve_token)
    (Some phone_user) 0 noon.

Definition week_env (amount : Z) : Env :=
  {| table :=
       [ new_transfer 1 300 PAYMENT (Some STANDARD) COMPLETE (Some reserve_token)
           (Some phone_user) 0 (days_ago 2);
         new_transfer 2 900 PAYMENT (Some STANDARD) COMPLETE (Some reserve_token)
           (Some phone_user) 0 (days_ago 10);
         week_payment amount ];
     today := noon |}.

Definition week_limit : Limit :=
  new_TotalAmountLimit demo_config "Sempo Level 1: P7" GENERAL_PAYMENTS
    (is_any_token_and_user_is_phone_but_not_kyc_verified holds_tier) 7
    (inject_Z 500) matching_transfer_type_filter.

(** Withdrawals of a group account: [before] earlier withdrawals of 10
    each, five days apart from now, and the withdrawal under validation
    (row 100) of the given amount, from an account of the given balance. *)
Definition group_withdrawal (amount bal : Z) : CreditTransfer :=
  new_transfer 100 amount WITHDRAWAL None PENDING (Some foo_token)
    (Some group_user) bal noon.

Definition earlier_withdrawals (before : nat) : list CreditTransfer :=
  map (fun i => new_transfer i 10 WITHDRAWAL None COMPLETE (Some foo_token)
                  (Some group_user) 0 (days_ago 5))
      (seq 1 before).

Definition group_env (before : nat) (amount bal : Z) : Env :=
  {| table := earlier_withdrawals before ++ [group_withdrawal amount bal];
     today := noon |}.

Definition group_count_limit (transfer_count : Z) : Limit :=
  new_TransferCountLimit "GE Liquid Token - Group Account User"
    [AGENT_OUT_PAYMENT; RawType WITHDRAWAL]
    (is_group_and_liquid_token holds_tier) 30 transfer_count
    withdrawal_or_agent_out_and_not_excluded_filter.

Definition group_fraction_limit : Limit :=
  new_BalanceFractionLimit "GE Liquid Token - Group Account User"
    [AGENT_OUT_PAYMENT; RawType WITHDRAWAL]
    (is_group_and_liquid_token holds_tier) 30 0.5%float
    withdrawal_or_agent_out_and_not_excluded_filter.

Definition group_maximum_limit : Limit :=
  new_MaximumAmountPerTransferLimit demo_config
    "GE Liquid Token - Group Account User"
    [AGENT_OUT_PAYMENT; RawType WITHDRAWAL]
    (is_group_and_liquid_token holds_tier) (inject_Z 5000).

Definition group_minimum_sent_limit : Limit :=
  new_MinimumSentLimit "GE Liquid Token - Group Account User"
    [AGENT_OUT_PAYMENT; RawType WITHDRAWAL]
    (is_group_and_liquid_token holds_tier) 30
    withdrawal_or_agent_out_and_not_excluded_filter regular_payment_filter.

(** A payment sent by an admin, and a history without any row. *)
Definition admin_payment : CreditTransfer :=
  new_transfer 1 10 PAYMENT (Some STANDARD) PENDING (Some reserve_token)
    (Some admin_user) 0 noon.

Definition empty_env : Env := {| table := []; today := noon |}.

(** A standard payment of 10 in the reserve token by the given sender. *)
Definition payment_by (sender : User) : CreditTransfer :=
  new_transfer 1 10 PAYMENT (Some STANDARD) PENDING (Some reserve_token)
    (Some sender) 0 noon.

(** A withdrawal of 10 by the given sender in the given token, and a
    payment of [phone_user] that carries no subtype. *)
Definition withdrawal_by (sender : User) (tok : Token) : CreditTransfer :=
  new_transfer 1 10 WITHDRAWAL None PENDING (Some tok) (Some sender) 0 noon.

Definition payment_without_token : CreditTransfer :=
  new_transfer 1 10 PAYMENT (Some STANDARD) PENDING None (Some phone_user) 0 noon.

Definition payment_without_subtype : CreditTransfer :=
  new_transfer 1 10 PAYMENT None PENDING (Some reserve_token) (Some phone_user)
    0 noon.

(** ** Vocabulary of the statements *)

(** The call returns (does not raise) and its value is falsy: [False] or
    [None]. *)
Definition returns_falsy (r : result pyval) : Prop :=
  exists v, r = Ok v /\ truthy v = false.

(** The call returns and its value is truthy. *)
Definition returns_truthy (r : result pyval) : Prop :=
  exists v, r = Ok v /\ truthy v = true.

(** The call returns, whatever the value. *)
Definition returns {A : Type} (r : result A) : Prop :=
  exists v, r = Ok v.

(** The checks of the module, grouped by how they treat a missing sender:
    the composite checks, the simple checks that test for [None] themselves,
    and the two that read an attribute of the sender directly. *)
Definition composite_checks
    (has_sufficient_tier : list (string * string) -> string -> string -> bool)
  : list (CreditTransfer -> result pyval) :=
  [ base_check has_sufficient_tier;
    is_user_and_any_token has_sufficient_tier;
    is_user_and_liquid_token has_sufficient_tier;
    is_group_and_liquid_token has_sufficient_tier;
    is_any_token_and_user_is_not_phone_and_not_kyc_verified has_sufficient_tier;
    is_any_token_and_user_is_phone_but_not_kyc_verified has_sufficient_tier;
    is_any_token_and_user_is_kyc_verified has_sufficient_tier;
    is_any_token_and_user_is_kyc_business_verified has_sufficient_tier ].

Definition guarded_simple_checks
    (has_sufficient_tier : list (string * string) -> string -> string -> bool)
  : list (CreditTransfer -> result pyval) :=
  [ sempo_admin_involved has_sufficient_tier;
    sender_user_exists;
    user_individual_kyc_is_verified;
    user_business_or_multidoc_kyc_verified;
    token_is_liquid_type;
    token_is_reserve_type;
    transfer_is_agent_out_subtype ].

Definition unguarded_simple_checks : list (CreditTransfer -> result pyval) :=
  [ user_has_group_account_role; user_phone_is_verified ].

(** A transfer without sender, recipient or token. *)
Definition orphan_transfer : CreditTransfer :=
  new_transfer 1 10 PAYMENT (Some STANDARD) PENDING None None 0 noon.

(** The rules of a verification level carry the level in their name. *)
Definition level_rule (level : string) (limit : Limit) : bool :=
  String.prefix ("Sempo Level " ++ level ++ ":") (name limit).

(** A payment on which both an individually verified and a business
    verified KYC application of the sender are on file. *)
Definition both_kyc_payment : CreditTransfer :=
  new_transfer 1 10 PAYMENT (Some STANDARD) PENDING (Some reserve_token)
    (Some both_kyc_user) 0 noon.

(** *** The history behind an aggregate limit *)

(** The rows an aggregate limit of window [days] and aggregation filter
    [custom] aggregates over when it validates [transfer]. *)
Definition aggregated (env : Env) (days : Z) (custom : AggregationFilter)
    (transfer : CreditTransfer) : list CreditTransfer :=
  matching_rows env
    (whereclause (query_constructor env days custom transfer
                    (session_query func_sum_transfer_amount))).

Definition is_other (transfer row : CreditTransfer) : bool :=
  negb (Nat.eqb (id row) (id transfer)).

(** The same rows without the transfer under validation: the sender's
    prior matching transfers. *)
Definition prior_rows (env : Env) (days : Z) (custom : AggregationFilter)
    (transfer : CreditTransfer) : list CreditTransfer :=
  filter (is_other transfer) (aggregated env days custom transfer).

Definition prior_usage (env : Env) (days : Z) (custom : AggregationFilter)
    (transfer : CreditTransfer) : Z :=
  sum_Z (map transfer_amount (prior_rows env days custom transfer)).

Definition prior_count (env : Env) (days : Z) (custom : AggregationFilter)
    (transfer : CreditTransfer) : Z :=
  Z.of_nat (List.length (prior_rows env days custom transfer)).

(** The transfer under validation is stored, under a primary key of its
    own, and passes the filters of its own aggregation. *)
Definition persisted (env : Env) (days : Z) (custom : AggregationFilter)
    (transfer : CreditTransfer) : Prop :=
  NoDup (map id (table env))
  /\ In transfer (aggregated env days custom transfer).

(** The reference sum of a [MinimumSentLimit] in the words of its
    documentation, for comparison with [regular_payment_filter]: the
    sender's standard payments, transfers of type [PAYMENT] and subtype
    [STANDARD]. *)
Definition documented_regular_payment_filter (transfer : CreditTransfer)
  : list Condition :=
  [fun row => TransferTypeEnum_eqb (transfer_type row) PAYMENT;
   fun row => subtype_eqb (transfer_subtype row) (Some STANDARD)].

Definition documented_minimum_sent_base (env : Env) (days : Z)
    (transfer : CreditTransfer) : Z :=
  sum_Z (map transfer_amount
           (aggregated env days documented_regular_payment_filter transfer)).

(** A group account that received a standard deposit of 100 three days ago
    and made no payment withdraws 50. *)
Definition deposit_env : Env :=
  {| table :=
       [ new_transfer 1 100 DEPOSIT (Some STANDARD) COMPLETE (Some foo_token)
           (Some group_user) 0 (days_ago 3);
         group_withdrawal 50 1000 ];
     today := noon |}.

(** The classes that take [used_aggregator] from
    [AggregateTransferAmountMixin]. *)
Definition uses_amount_mixin (cls : AggregateClass) : bool :=
  match cls with
  | TransferCountLimit _ => false
  | _ => true
  end.

(** The truth value [get_transfer_limits] reads off a call of
    [applies_to_transfer]. *)
Definition applies (limit : Limit) (transfer : CreditTransfer) : bool :=
  match applies_to_transfer limit transfer with
  | Ok v => truthy v
  | Raise _ => false
  end.

(** *** The history in the words of the claims

    Written out on the table itself, independently of the queries above:
    [row] is a prior transfer that counts towards a limit of window [days]
    and aggregation filter [custom] validating [transfer] when it is another
    stored transfer, of the same sender, not rejected, created within the
    last [days] days (a day is 86400000000 microseconds), and accepted by
    the aggregation filter. *)
Definition counts_as_prior (env : Env) (days : Z) (custom : AggregationFilter)
    (transfer row : CreditTransfer) : bool :=
  negb (Nat.eqb (id row) (id transfer))
  && match sender_user row, sender_user transfer with
     | Some a, Some b => Nat.eqb (user_id a) (user_id b)
     | None, None => true
     | _, _ => false
     end
  && match transfer_status row with REJECTED => false | _ => true end
  && (today env - days * 86400000000 <=? created row)
  && forallb (fun condition => condition row) (custom transfer).

Definition prior_matching_sum (env : Env) (days : Z) (custom : AggregationFilter)
    (transfer : CreditTransfer) : Z :=
  sum_Z (map transfer_amount
           (filter (counts_as_prior env days custom transfer) (table env))).

Definition prior_matching_count (env : Env) (days : Z) (custom : AggregationFilter)
    (transfer : CreditTransfer) : Z :=
  Z.of_nat (List.length
              (filter (counts_as_prior env days custom transfer) (table env))).

(** The transfer under validation is itself a stored row, under a primary
    key of its own, not rejected, created within the window and accepted by
    the aggregation filter built from it. *)
Definition stored_and_counted (env : Env) (days : Z) (custom : AggregationFilter)
    (transfer : CreditTransfer) : Prop :=
  NoDup (map id (table env))
  /\ In transfer (table env)
  /\ transfer_status transfer <> REJECTED
  /\ today env - days * 86400000000 <= created transfer
  /\ forallb (fun condition => condition transfer) (custom transfer) = true.

(** A withdrawal of a group account that is flagged
    [exclude_from_limit_calcs]: stored, alone in the history. *)
Definition excluded_withdrawal (amount bal : Z) : CreditTransfer :=
  {| id := 100; transfer_amount := amount; transfer_type := WITHDRAWAL;
     transfer_subtype := None; transfer_status := PENDING;
     token := Some foo_token; sender_user := Some group_user;
     recipient_user := None;
     sender_transfer_account := Some {| balance := bal |};
     created := noon; exclude_from_limit_calcs := true |}.

Definition excluded_env (amount bal : Z) : Env :=
  {| table := [excluded_withdrawal amount bal]; today := noon |}.

(** * Properties *)

(** ** Python's boolean operators *)

Lemma returns_falsy_not_truthy r : returns_falsy r -> ~ returns_truthy r.
Proof.
  intros [v [Hv Hf]] [w [Hw Ht]]. congruence.
Qed.

Lemma py_and_falsy_l a b : returns_falsy a -> returns_falsy (py_and a b).
Proof.
  intros [v [-> Hv]]. exists v. unfold py_and; simpl. now rewrite Hv.
Qed.

Lemma py_and_falsy_r a b :
  returns a -> returns_falsy b -> returns_falsy (py_and a b).
Proof.
  intros [v ->] [w [-> Hw]]. unfold py_and; simpl.
  destruct (truthy v) eqn:E.
  - now exists w.
  - now exists v.
Qed.

Lemma py_and_truthy a b :
  returns_truthy (py_and a b) <-> returns_truthy a /\ returns_truthy b.
Proof.
  unfold py_and, returns_truthy. split.
  - destruct a as [v|e]; simpl.
    + destruct (truthy v) eqn:E.
      * intros H. split; [now exists v | exact H].
      * intros [w [Hw Ht]]. congruence.
    + intros [w [Hw _]]. discriminate.
  - intros [[v [-> Hv]] Hb]. simpl. now rewrite Hv.
Qed.

Lemma py_not_falsy a : returns_truthy a -> returns_falsy (py_not a).
Proof.
  intros [v [-> Hv]]. exists (VBool false). simpl. now rewrite Hv.
Qed.

Lemma py_not_truthy a : returns_truthy (py_not a) <-> returns_falsy a.
Proof.
  unfold py_not. split.
  - destruct a as [v|e]; simpl; intros [w [Hw Ht]]; [|discriminate].
    exists v. split; [reflexivity|].
    injection Hw as <-. simpl in Ht. now destruct (truthy v).
  - intros [v [-> Hv]]. exists (VBool true). simpl. now rewrite Hv.
Qed.

Lemma py_or_truthy_l a b : returns_truthy a -> returns_truthy (py_or a b).
Proof.
  intros [v [-> Hv]]. exists v. unfold py_or; simpl. now rewrite Hv.
Qed.

Lemma comprehension_nothing {A : Type} (f : A -> result pyval) (xs : list A) :
  Forall (fun x => returns_falsy (f x)) xs -> comprehension f xs = Ok [].
Proof.
  induction 1 as [|x rest [v [Hx Hv]] _ IH]; simpl.
  - reflexivity.
  - rewrite Hx, IH. simpl. now rewrite Hv.
Qed.

(** ** Tactics for the checks *)

Ltac run_check :=
  repeat match goal with
         | |- context [recipient_user ?t] => destruct (recipient_user t); simpl
         | |- context [token ?t] => destruct (token t); simpl
         | |- context [find ?f ?l] => destruct (find f l); simpl
         | |- context [TokenType_eqb ?a ?b] => destruct (TokenType_eqb a b); simpl
         | |- context [is_phone_verified ?u] => destruct (is_phone_verified u); simpl
         | |- context [has_group_account_role ?u] =>
             destruct (has_group_account_role u); simpl
         | |- context [if ?b then _ else _] => destruct b; simpl
         end.

Ltac solve_returns :=
  first [ eexists; reflexivity
        | eexists; split; reflexivity ].

Ltac unfold_checks :=
  cbv beta delta
    [ returns returns_falsy returns_truthy
      base_check is_user_and_any_token is_user_and_liquid_token
      is_group_and_liquid_token
      is_any_token_and_user_is_not_phone_and_not_kyc_verified
      is_any_token_and_user_is_phone_but_not_kyc_verified
      is_any_token_and_user_is_kyc_verified
      is_any_token_and_user_is_kyc_business_verified
      sender_user_exists sempo_admin_involved user_has_group_account_role
      user_phone_is_verified user_individual_kyc_is_verified
      user_business_or_multidoc_kyc_verified _sender_matches_kyc_criteria
      token_is_liquid_type token_is_reserve_type transfer_is_agent_out_subtype
      sender_attr py_and py_or py_not bind of_option_user ].

Ltac split_checks :=
  repeat (apply Forall_cons || apply Forall_nil).

Ltac refute_truthy :=
  let v := fresh "v" in
  let Hv := fresh "Hv" in
  let Ht := fresh "Ht" in
  intros [v [Hv Ht]]; inversion Hv; subst; simpl in Ht; try discriminate Ht.

Section Properties.

Variable has_sufficient_tier : list (string * string) -> string -> string -> bool.
Variable config : Config.

(** ** Totality of the checks *)

Lemma composite_checks_return transfer :
  Forall (fun check => returns (check transfer))
         (composite_checks has_sufficient_tier).
Proof.
  unfold composite_checks. split_checks.
  all: unfold_checks; destruct (sender_user transfer) as [u|]; simpl.
  all: run_check; solve_returns.
Qed.

Lemma guarded_simple_checks_return transfer :
  Forall (fun check => returns (check transfer))
         (guarded_simple_checks has_sufficient_tier).
Proof.
  unfold guarded_simple_checks. split_checks.
  all: unfold_checks; destruct (sender_user transfer) as [u|]; simpl.
  all: run_check; solve_returns.
Qed.

Lemma checks_without_sender transfer :
  sender_user transfer = None ->
  Forall (fun check => returns_falsy (check transfer))
         (composite_checks has_sufficient_tier
          ++ [ sender_user_exists; user_individual_kyc_is_verified;
               user_business_or_multidoc_kyc_verified ]).
Proof.
  intros Hs. unfold composite_checks, app. split_checks.
  all: unfold_checks; rewrite Hs; simpl.
  all: run_check; solve_returns.
Qed.

Lemma checks_without_token transfer :
  token transfer = None ->
  Forall (fun check => returns_falsy (check transfer))
         (tl (composite_checks has_sufficient_tier)
          ++ [ token_is_liquid_type; token_is_reserve_type ]).
Proof.
  intros Ht. unfold composite_checks, tl, app. split_checks.
  all: unfold_checks; rewrite Ht; destruct (sender_user transfer) as [u|]; simpl.
  all: run_check; solve_returns.
Qed.

Lemma unguarded_simple_checks_return transfer :
  Forall (fun check =>
            match sender_user transfer with
            | Some _ => returns (check transfer)
            | None => check transfer = Raise AttributeError
            end)
         unguarded_simple_checks.
Proof.
  unfold unguarded_simple_checks. split_checks.
  all: unfold_checks; destruct (sender_user transfer) as [u|]; simpl.
  all: first [reflexivity | solve_returns].
Qed.

(** C6, as the code has it.  Every composite check returns for every
    transfer, and so does every simple check that tests for [None] itself;
    without a sender the composite checks and the sender checks among the
    latter return a falsy value ([False] or [None]), and without a token so
    do the composite checks that look at the token and the two token checks.
    [user_has_group_account_role] and [user_phone_is_verified] return when
    the transfer has a sender and raise [AttributeError] when it has none;
    the composite checks only call them once [base_check] has found a
    sender. *)
Theorem checks_total_except_sender_attributes transfer :
  Forall (fun check => returns (check transfer))
         (composite_checks has_sufficient_tier
          ++ guarded_simple_checks has_sufficient_tier)
  /\ (sender_user transfer = None ->
      Forall (fun check => returns_falsy (check transfer))
             (composite_checks has_sufficient_tier
              ++ [ sender_user_exists; user_individual_kyc_is_verified;
                   user_business_or_multidoc_kyc_verified ]))
  /\ (token transfer = None ->
      Forall (fun check => returns_falsy (check transfer))
             (tl (composite_checks has_sufficient_tier)
              ++ [ token_is_liquid_type; token_is_reserve_type ]))
  /\ Forall (fun check =>
               match sender_user transfer with
               | Some _ => returns (check transfer)
               | None => check transfer = Raise AttributeError
               end)
            unguarded_simple_checks.
Proof.
  split; [|split; [|split]].
  - apply Forall_app. split.
    + apply composite_checks_return.
    + apply guarded_simple_checks_return.
  - apply checks_without_sender.
  - apply checks_without_token.
  - apply unguarded_simple_checks_return.
Qed.

(** C6, the claim as stated fails: on a transfer without sender the two
    checks that read a sender attribute raise instead of returning false. *)
Lemma sender_attribute_checks_raise :
  user_has_group_account_role orphan_transfer = Raise AttributeError
  /\ user_phone_is_verified orphan_transfer = Raise AttributeError.
Proof.
  split; reflexivity.
Qed.

(** ** Applicability of a limit *)

Lemma TransferTypeEnum_eqb_eq a b : TransferTypeEnum_eqb a b = true <-> a = b.
Proof.
  destruct a, b; simpl; split; intros H; congruence.
Qed.

Lemma TransferSubTypeEnum_eqb_eq a b : TransferSubTypeEnum_eqb a b = true <-> a = b.
Proof.
  destruct a, b; simpl; split; intros H; congruence.
Qed.

Lemma type_in_In x l : type_in x l = true <-> In (OfType x) l.
Proof.
  unfold type_in. rewrite existsb_exists. split.
  - intros [[t|t s] [Hin He]]; [|discriminate].
    apply TransferTypeEnum_eqb_eq in He. now subst.
  - intros Hin. exists (OfType x). split; [exact Hin|].
    now apply TransferTypeEnum_eqb_eq.
Qed.

Lemma pair_in_In x y l :
  pair_in x y l = true <-> exists s, y = Some s /\ In (OfPair x s) l.
Proof.
  unfold pair_in. rewrite existsb_exists. split.
  - intros [[t|t s] [Hin He]]; [discriminate|].
    apply andb_true_iff in He. destruct He as [Ht Hs].
    apply TransferTypeEnum_eqb_eq in Ht. subst t.
    destruct y as [s'|]; [|discriminate]. simpl in Hs.
    apply TransferSubTypeEnum_eqb_eq in Hs. subst s'.
    exists s. now split.
  - intros [s [-> Hin]]. exists (OfPair x s). split; [exact Hin|].
    apply andb_true_iff. split.
    + now apply TransferTypeEnum_eqb_eq.
    + simpl. now apply TransferSubTypeEnum_eqb_eq.
Qed.

(** The entries a limit is built from and the entries it keeps: a list entry
    is kept as the tuple of its elements, nothing else changes. *)
Lemma force_tuple_In raw e :
  In e (map force_tuple raw) <->
  match e with
  | OfType t => In (RawType t) raw
  | OfPair t s => In (RawTuple t s) raw \/ In (RawList t s) raw
  end.
Proof.
  rewrite in_map_iff. split.
  - intros [[t|t s|t s] [<- Hin]]; simpl; auto.
  - destruct e as [t|t s].
    + intros Hin. now exists (RawType t).
    + intros [Hin|Hin]; [now exists (RawTuple t s) | now exists (RawList t s)].
Qed.

(** C8. A limit applies to a transfer (the call returns a truthy value)
    exactly when the transfer's type, or its (type, subtype) pair, is an
    element of [applied_to_transfer_types] and the application filter returns
    a truthy value; membership is equality with an entry, and the entries
    are those given to the constructor (lists turned into tuples). *)
Theorem applies_to_transfer_iff :
  (forall self transfer,
      returns_truthy (applies_to_transfer self transfer) <->
      (In (OfType (transfer_type transfer)) (applied_to_transfer_types self)
       \/ exists sub, transfer_subtype transfer = Some sub
                      /\ In (OfPair (transfer_type transfer) sub)
                            (applied_to_transfer_types self))
      /\ returns_truthy (application_filter self transfer))
  /\ (forall name raw filter class e,
        In e (applied_to_transfer_types
                (BaseTransferLimit_init name raw filter class)) <->
        match e with
        | OfType t => In (RawType t) raw
        | OfPair t s => In (RawTuple t s) raw \/ In (RawList t s) raw
        end).
Proof.
  split.
  - intros self transfer. unfold applies_to_transfer.
    rewrite py_and_truthy, <- type_in_In, <- pair_in_In, <- orb_true_iff.
    split; intros [Hsel Hf]; (split; [|exact Hf]).
    + destruct Hsel as [v [Hv Ht]]. injection Hv as <-. exact Ht.
    + eexists; split; [reflexivity|exact Hsel].
  - intros name raw filter class e. simpl. apply force_tuple_In.
Qed.

(** ** Admin exemption *)

Lemma base_check_admin transfer :
  sempo_admin_involved has_sufficient_tier transfer = Ok (VBool true) ->
  returns_falsy (base_check has_sufficient_tier transfer).
Proof.
  intros H. unfold base_check, sender_user_exists, py_and. rewrite H.
  destruct (sender_user transfer) as [u|]; simpl.
  - now exists (VBool false).
  - now exists VNone.
Qed.

Lemma filters_admin transfer :
  sempo_admin_involved has_sufficient_tier transfer = Ok (VBool true) ->
  returns_falsy
    (is_any_token_and_user_is_not_phone_and_not_kyc_verified has_sufficient_tier
       transfer) /\
  returns_falsy
    (is_any_token_and_user_is_phone_but_not_kyc_verified has_sufficient_tier transfer) /\
  returns_falsy (is_any_token_and_user_is_kyc_verified has_sufficient_tier transfer) /\
  returns_falsy
    (is_any_token_and_user_is_kyc_business_verified has_sufficient_tier transfer) /\
  returns_falsy (is_user_and_liquid_token has_sufficient_tier transfer) /\
  returns_falsy (is_group_and_liquid_token has_sufficient_tier transfer).
Proof.
  intros H. pose proof (base_check_admin transfer H) as Hb.
  assert (Ha : returns_falsy (is_user_and_any_token has_sufficient_tier transfer))
    by (now apply py_and_falsy_l).
  repeat split; repeat (first [assumption | apply py_and_falsy_l]).
Qed.

Lemma applies_to_transfer_falsy self transfer :
  returns_falsy (application_filter self transfer) ->
  returns_falsy (applies_to_transfer self transfer).
Proof.
  intros H. apply py_and_falsy_r; [|exact H]. eexists; reflexivity.
Qed.

(** C1. A transfer in which a Sempo admin is involved has no applicable
    limit: no rule of [LIMITS] applies to it and [get_transfer_limits]
    returns the empty list. *)
Theorem admin_involved_no_limits transfer :
  sempo_admin_involved has_sufficient_tier transfer = Ok (VBool true) ->
  Forall (fun limit => returns_falsy (applies_to_transfer limit transfer))
         (LIMITS has_sufficient_tier config)
  /\ get_transfer_limits has_sufficient_tier config transfer = Ok [].
Proof.
  intros H.
  destruct (filters_admin transfer H) as (H0 & H1 & H2 & H3 & Hu & Hg).
  assert (HF : Forall (fun limit => returns_falsy (applies_to_transfer limit transfer))
                      (LIMITS has_sufficient_tier config)).
  { unfold LIMITS.
    repeat (apply Forall_cons; [apply applies_to_transfer_falsy; assumption|]).
    apply Forall_nil. }
  split; [exact HF|].
  unfold get_transfer_limits. now apply comprehension_nothing.
Qed.

(** ** Verification tiers *)

Lemma comprehension_spec {A : Type} (f : A -> result pyval) (xs : list A) :
  Forall (fun x => returns (f x)) xs ->
  exists kept, comprehension f xs = Ok kept
               /\ forall x, In x kept <-> In x xs /\ returns_truthy (f x).
Proof.
  induction 1 as [|x rest [v Hx] _ [kept [IH Hk]]]; simpl.
  - exists []. split; [reflexivity|]. simpl. tauto.
  - rewrite Hx, IH. simpl. eexists. split; [reflexivity|].
    intros y. destruct (truthy v) eqn:Hv; simpl; rewrite ?Hk.
    + split.
      * intros [<-|[Hin Hy]]; [|tauto]. split; [now left|]. now exists v.
      * tauto.
    + split; [tauto|]. intros [[<-|Hin] Hy]; [|tauto].
      destruct Hy as [w [Hw Ht]]. congruence.
Qed.

Lemma applies_to_transfer_returns self transfer :
  returns (application_filter self transfer) ->
  returns (applies_to_transfer self transfer).
Proof.
  intros [v Hv]. unfold applies_to_transfer, py_and. rewrite Hv. simpl.
  destruct (_ || _); eexists; reflexivity.
Qed.

Lemma get_transfer_limits_spec transfer :
  exists limits,
    get_transfer_limits has_sufficient_tier config transfer = Ok limits
    /\ forall limit,
         In limit limits <->
         In limit (LIMITS has_sufficient_tier config)
         /\ returns_truthy (applies_to_transfer limit transfer).
Proof.
  apply comprehension_spec.
  pose proof (composite_checks_return transfer) as Hc.
  rewrite Forall_forall in Hc.
  unfold LIMITS.
  repeat (apply Forall_cons;
          [apply applies_to_transfer_returns; apply Hc; simpl; tauto|]).
  apply Forall_nil.
Qed.

Lemma level_1_excludes transfer :
  returns_truthy
    (is_any_token_and_user_is_phone_but_not_kyc_verified has_sufficient_tier transfer) ->
  returns_falsy
    (is_any_token_and_user_is_not_phone_and_not_kyc_verified has_sufficient_tier transfer)
  /\ returns_falsy (is_any_token_and_user_is_kyc_verified has_sufficient_tier transfer)
  /\ returns_falsy
       (is_any_token_and_user_is_kyc_business_verified has_sufficient_tier transfer).
Proof.
  unfold_checks. destruct (sender_user transfer) as [u|]; simpl.
  all: run_check; refute_truthy; repeat split; solve_returns.
Qed.

Lemma level_2_excludes transfer :
  returns_truthy (is_any_token_and_user_is_kyc_verified has_sufficient_tier transfer) ->
  returns_falsy
    (is_any_token_and_user_is_not_phone_and_not_kyc_verified has_sufficient_tier transfer)
  /\ returns_falsy
       (is_any_token_and_user_is_phone_but_not_kyc_verified has_sufficient_tier transfer).
Proof.
  unfold_checks. destruct (sender_user transfer) as [u|]; simpl.
  all: run_check; refute_truthy; repeat split; solve_returns.
Qed.

Lemma general_payment_selected transfer :
  transfer_type transfer = PAYMENT ->
  transfer_subtype transfer <> None ->
  type_in (transfer_type transfer) (map force_tuple GENERAL_PAYMENTS)
  || pair_in (transfer_type transfer) (transfer_subtype transfer)
       (map force_tuple GENERAL_PAYMENTS) = true.
Proof.
  intros -> Hs. destruct (transfer_subtype transfer) as [[| | |]|].
  all: try reflexivity. now elim Hs.
Qed.

Ltac rule_by_rule Hin Happ :=
  unfold LIMITS in Hin; simpl in Hin;
  repeat (destruct Hin as [<-|Hin];
          [ first [ now (repeat split)
                  | exfalso; unfold applies_to_transfer in Happ;
                    apply py_and_truthy in Happ;
                    destruct Happ as [_ Happ]; simpl in Happ;
                    revert Happ; apply returns_falsy_not_truthy;
                    assumption ] | ]);
  contradiction.

(** C7, as the code has it.  The pairs of tier checks that exclude each
    other are (level 0, level 1), (level 0, level 2), (level 1, level 2) and
    (level 1, level 3).  For a sender whom the phone-but-not-KYC check
    accepts, no rule of levels 0, 2 or 3 is among the limits of the
    transfer, and a general payment has the level 1 P7 and P30 rules; once
    the individually-KYC-verified check accepts the sender, no rule of
    levels 0 or 1 is among them and a general payment has the level 2 P7 and
    P30 rules.  (Nothing is said here about level 0 against level 3; level 2
    and level 3 can hold together.) *)
Theorem tier_checks_exclusion transfer :
  let level_0 :=
    is_any_token_and_user_is_not_phone_and_not_kyc_verified has_sufficient_tier
      transfer in
  let level_1 :=
    is_any_token_and_user_is_phone_but_not_kyc_verified has_sufficient_tier
      transfer in
  let level_2 := is_any_token_and_user_is_kyc_verified has_sufficient_tier transfer in
  let level_3 :=
    is_any_token_and_user_is_kyc_business_verified has_sufficient_tier transfer in
  ~ (returns_truthy level_0 /\ returns_truthy level_1)
  /\ ~ (returns_truthy level_0 /\ returns_truthy level_2)
  /\ ~ (returns_truthy level_1 /\ returns_truthy level_2)
  /\ ~ (returns_truthy level_1 /\ returns_truthy level_3)
  /\ exists limits,
       get_transfer_limits has_sufficient_tier config transfer = Ok limits
       /\ (returns_truthy level_1 ->
           Forall (fun limit => level_rule "0" limit = false
                                /\ level_rule "2" limit = false
                                /\ level_rule "3" limit = false) limits
           /\ (transfer_type transfer = PAYMENT ->
               transfer_subtype transfer <> None ->
               In "Sempo Level 1: P7" (map name limits)
               /\ In "Sempo Level 1: P30" (map name limits)))
       /\ (returns_truthy level_2 ->
           Forall (fun limit => level_rule "0" limit = false
                                /\ level_rule "1" limit = false) limits
           /\ (transfer_type transfer = PAYMENT ->
               transfer_subtype transfer <> None ->
               In "Sempo Level 2: P7" (map name limits)
               /\ In "Sempo Level 2: P30" (map name limits))).
Proof.
  intros level_0 level_1 level_2 level_3.
  assert (H01 : ~ (returns_truthy level_0 /\ returns_truthy level_1)).
  { intros [H0 H1]. apply level_1_excludes in H1. destruct H1 as (F0 & _ & _).
    exact (returns_falsy_not_truthy _ F0 H0). }
  assert (H02 : ~ (returns_truthy level_0 /\ returns_truthy level_2)).
  { intros [H0 H2]. apply level_2_excludes in H2. destruct H2 as (F0 & _).
    exact (returns_falsy_not_truthy _ F0 H0). }
  assert (H12 : ~ (returns_truthy level_1 /\ returns_truthy level_2)).
  { intros [H1 H2]. apply level_2_excludes in H2. destruct H2 as (_ & F1).
    exact (returns_falsy_not_truthy _ F1 H1). }
  assert (H13 : ~ (returns_truthy level_1 /\ returns_truthy level_3)).
  { intros [H1 H3]. apply level_1_excludes in H1. destruct H1 as (_ & _ & F3).
    exact (returns_falsy_not_truthy _ F3 H3). }
  repeat (split; [assumption|]).
  clear H01 H02 H12 H13. subst level_0 level_1 level_2 level_3.
  destruct (get_transfer_limits_spec transfer) as [limits [Hget Hspec]].
  exists limits. split; [exact Hget|]. split.
  - intros H1. destruct (level_1_excludes transfer H1) as (F0 & F2 & F3). split.
    + apply Forall_forall. intros limit Hl. apply Hspec in Hl.
      destruct Hl as [Hin Happ]. rule_by_rule Hin Happ.
    + intros Hty Hsub.
      pose proof (general_payment_selected transfer Hty Hsub) as Hsel.
      split; apply in_map_iff; eexists; (split; [|apply Hspec; split]).
      2: unfold LIMITS; do 3 right; left; reflexivity.
      4: unfold LIMITS; do 4 right; left; reflexivity.
      1, 3: reflexivity.
      all: apply py_and_truthy; split; [|exact H1].
      all: eexists; split; [reflexivity|exact Hsel].
  - intros H2. destruct (level_2_excludes transfer H2) as (F0 & F1). split.
    + apply Forall_forall. intros limit Hl. apply Hspec in Hl.
      destruct Hl as [Hin Happ]. rule_by_rule Hin Happ.
    + intros Hty Hsub.
      pose proof (general_payment_selected transfer Hty Hsub) as Hsel.
      split; apply in_map_iff; eexists; (split; [|apply Hspec; split]).
      2: unfold LIMITS; do 6 right; left; reflexivity.
      4: unfold LIMITS; do 7 right; left; reflexivity.
      1, 3: reflexivity.
      all: apply py_and_truthy; split; [|exact H2].
      all: eexists; split; [reflexivity|exact Hsel].
Qed.

(** C7, the claim as stated fails: for a sender with an individually
    verified and a business verified application on file, the level 2 and
    the level 3 checks both return [True], and the payment gets the P7 rules
    of both levels. *)
Lemma level_2_and_level_3_overlap :
  is_any_token_and_user_is_kyc_verified holds_tier both_kyc_payment = Ok (VBool true)
  /\ is_any_token_and_user_is_kyc_business_verified holds_tier both_kyc_payment
     = Ok (VBool true)
  /\ (limits <- get_transfer_limits holds_tier demo_config both_kyc_payment ;;
      Ok (map name limits))
     = Ok [ "Sempo Level 2: P7"; "Sempo Level 2: P30";
            "Sempo Level 3: P7"; "Sempo Level 3: P30" ].
Proof.
  repeat split; reflexivity.
Qed.

(** The level 0 check negates the individual KYC check only: a business
    verified sender whose phone is not verified passes the level 0 and the
    level 3 checks. *)
Lemma level_0_and_level_3_overlap :
  is_any_token_and_user_is_not_phone_and_not_kyc_verified holds_tier
    (payment_by business_user_without_phone) = Ok (VBool true)
  /\ is_any_token_and_user_is_kyc_business_verified holds_tier
       (payment_by business_user_without_phone) = Ok (VBool true).
Proof.
  split; reflexivity.
Qed.

End Properties.

(** ** Aggregation over the history *)

Lemma filter_is_other_all transfer rows :
  ~ In (id transfer) (map id rows) ->
  filter (is_other transfer) rows = rows.
Proof.
  induction rows as [|row rows IH]; simpl; intros Hn.
  - reflexivity.
  - unfold is_other at 1. destruct (Nat.eqb_spec (id row) (id transfer)) as [E|E].
    + elim Hn. now left.
    + simpl. f_equal. apply IH. tauto.
Qed.

Lemma filter_map_id_incl (P : CreditTransfer -> bool) rows i :
  In i (map id (filter P rows)) -> In i (map id rows).
Proof.
  rewrite !in_map_iff. intros [row [E Hin]]. apply filter_In in Hin.
  exists row. tauto.
Qed.

Lemma sum_Z_cons x l : sum_Z (x :: l) = x + sum_Z l.
Proof. reflexivity. Qed.

Lemma is_other_self transfer : is_other transfer transfer = false.
Proof.
  unfold is_other. now rewrite Nat.eqb_refl.
Qed.

Lemma is_other_neq transfer row :
  id row <> id transfer -> is_other transfer row = true.
Proof.
  unfold is_other. intros H. apply Nat.eqb_neq in H. now rewrite H.
Qed.

(** Taking the transfer's own row out of a selection that holds it removes
    its amount from the sum and one from the count. *)
Lemma own_row_split (P : CreditTransfer -> bool) transfer rows :
  NoDup (map id rows) ->
  In transfer (filter P rows) ->
  sum_Z (map transfer_amount (filter P rows))
  = sum_Z (map transfer_amount (filter (is_other transfer) (filter P rows)))
    + transfer_amount transfer
  /\ List.length (filter P rows)
     = S (List.length (filter (is_other transfer) (filter P rows))).
Proof.
  induction rows as [|row rows IH]; intros Hnd Hin.
  - contradiction.
  - inversion Hnd as [|i others Hni Hnd']; subst.
    cbn [filter] in *. destruct (P row) eqn:HP.
    + cbn [filter]. destruct Hin as [<-|Hin].
      * rewrite is_other_self, filter_is_other_all.
        -- cbn [map List.length]. rewrite sum_Z_cons. split; [lia|reflexivity].
        -- intros H. apply Hni. eapply filter_map_id_incl. exact H.
      * destruct (IH Hnd' Hin) as [IHs IHc].
        rewrite is_other_neq.
        -- cbn [map List.length]. rewrite !sum_Z_cons.
           split; [lia|now rewrite IHc].
        -- intros E. apply Hni. rewrite E. apply filter_In in Hin.
           apply in_map. tauto.
    + now apply IH.
Qed.

Lemma sql_sum_nonempty (l : list Z) : l <> [] -> sql_sum l = Some (sum_Z l).
Proof.
  destruct l; [congruence|reflexivity].
Qed.

Section Aggregation.

Variables (env : Env) (days : Z) (custom : AggregationFilter)
          (transfer : CreditTransfer).

Lemma sum_query_first :
  Query_first env (query_constructor env days custom transfer
                     (session_query func_sum_transfer_amount))
  = sql_sum (map transfer_amount (aggregated env days custom transfer)).
Proof. reflexivity. Qed.

Lemma count_query_first :
  Query_first env (query_constructor env days custom transfer
                     (session_query func_count_id))
  = Some (Z.of_nat (List.length (aggregated env days custom transfer))).
Proof. reflexivity. Qed.

Lemma persisted_sum :
  persisted env days custom transfer ->
  sql_sum (map transfer_amount (aggregated env days custom transfer))
  = Some (prior_usage env days custom transfer + transfer_amount transfer).
Proof.
  intros [Hnd Hin].
  rewrite sql_sum_nonempty.
  - f_equal. unfold prior_usage, prior_rows, aggregated, matching_rows in *.
    now apply own_row_split.
  - destruct (aggregated env days custom transfer); [contradiction|].
    simpl. congruence.
Qed.

Lemma persisted_count :
  persisted env days custom transfer ->
  Z.of_nat (List.length (aggregated env days custom transfer))
  = prior_count env days custom transfer + 1.
Proof.
  intros [Hnd Hin].
  unfold prior_count, prior_rows, aggregated, matching_rows in *.
  destruct (own_row_split _ _ _ Hnd Hin) as [_ Hc]. rewrite Hc. lia.
Qed.

(** What the prior rows are: rows of the table other than the transfer
    itself, of the same sender, not rejected, created no earlier than
    [days] days before now, and accepted by the aggregation filter. *)
Lemma prior_rows_spec row :
  In row (prior_rows env days custom transfer) <->
  In row (table env)
  /\ id row <> id transfer
  /\ user_eqb (sender_user row) (sender_user transfer) = true
  /\ transfer_status row <> REJECTED
  /\ today env - timedelta days <= created row
  /\ forallb (fun c => c row) (custom transfer) = true.
Proof.
  unfold prior_rows, aggregated, matching_rows. rewrite !filter_In.
  unfold query_constructor, query_constructor_filter_specifiable,
    combine_filter_lists, Query_filter, session_query. simpl.
  unfold is_other. rewrite negb_true_iff, Nat.eqb_neq.
  rewrite !andb_true_iff, negb_true_iff, Z.geb_le.
  assert (Hst : TransferStatusEnum_eqb (transfer_status row) REJECTED = false
                <-> transfer_status row <> REJECTED).
  { destruct (transfer_status row); simpl; split; congruence. }
  rewrite Hst. tauto.
Qed.

End Aggregation.

Lemma filter_twice {A : Type} (P Q : A -> bool) (l : list A) :
  filter P (filter Q l) = filter (fun x => Q x && P x) l.
Proof.
  induction l as [|x l IH]; simpl; [reflexivity|].
  destruct (Q x); simpl; [destruct (P x)|]; now rewrite IH.
Qed.

(** The rows the queries select are the rows the claims speak of. *)
Lemma prior_rows_explicit env days custom transfer :
  prior_rows env days custom transfer
  = filter (counts_as_prior env days custom transfer) (table env).
Proof.
  unfold prior_rows, aggregated, matching_rows. rewrite filter_twice.
  apply filter_ext. intros row. apply eq_iff_eq_true.
  unfold query_constructor, query_constructor_filter_specifiable,
    combine_filter_lists, Query_filter, session_query, counts_as_prior,
    is_other, user_eqb, timedelta. simpl.
  rewrite !andb_true_iff, Z.geb_le, Z.leb_le.
  destruct (transfer_status row); simpl; intuition congruence.
Qed.

Lemma prior_usage_explicit env days custom transfer :
  prior_usage env days custom transfer
  = prior_matching_sum env days custom transfer.
Proof.
  unfold prior_usage, prior_matching_sum. now rewrite prior_rows_explicit.
Qed.

Lemma prior_count_explicit env days custom transfer :
  prior_count env days custom transfer
  = prior_matching_count env days custom transfer.
Proof.
  unfold prior_count, prior_matching_count. now rewrite prior_rows_explicit.
Qed.

Lemma stored_and_counted_persisted env days custom transfer :
  stored_and_counted env days custom transfer ->
  persisted env days custom transfer.
Proof.
  intros (Hnd & Hin & Hst & Hw & Hc). split; [exact Hnd|].
  unfold aggregated, matching_rows. apply filter_In. split; [exact Hin|].
  unfold query_constructor, query_constructor_filter_specifiable,
    combine_filter_lists, Query_filter, session_query, user_eqb, timedelta.
  simpl. rewrite !andb_true_iff, Z.geb_le. repeat split.
  - destruct (sender_user transfer); [apply Nat.eqb_refl|reflexivity].
  - destruct (transfer_status transfer); simpl; congruence.
  - exact Hw.
  - exact Hc.
Qed.

(** ** Validation against a limit *)

Section Validation.

Variable config : Config.
Variable env : Env.

Lemma amount_used_aggregator_persisted days custom transfer :
  persisted env days custom transfer ->
  AggregateTransferAmountMixin_used_aggregator env transfer
    (query_constructor env days custom)
  = Ok (prior_usage env days custom transfer).
Proof.
  intros Hp. unfold AggregateTransferAmountMixin_used_aggregator.
  rewrite sum_query_first, (persisted_sum _ _ _ _ Hp). f_equal. lia.
Qed.

Lemma count_used_aggregator_persisted days custom transfer :
  persisted env days custom transfer ->
  TransferCountLimit_used_aggregator env transfer
    (query_constructor env days custom)
  = Ok (prior_count env days custom transfer).
Proof.
  intros Hp. unfold TransferCountLimit_used_aggregator.
  rewrite count_query_first, (persisted_count _ _ _ _ Hp). f_equal. lia.
Qed.

(** C2. A per-transfer maximum whose scaled ceiling is [C] lets a transfer
    of amount [C] through and rejects one of amount [C + 1] with
    [MaximumPerTransferLimitError]; it raises exactly when the amount
    exceeds [C].  The transfer carries a token, whose name the error
    reports. *)
Theorem maximum_amount_per_transfer_ceiling
    name types check maximum_amount transfer tok :
  let self :=
    new_MaximumAmountPerTransferLimit config name types check maximum_amount in
  let C := py_int (maximum_amount * LIMIT_EXCHANGE_RATE config)%Q in
  token transfer = Some tok ->
  (transfer_amount transfer = C -> validate_transfer env self transfer = Ok tt)
  /\ (transfer_amount transfer = C + 1 ->
      validate_transfer env self transfer
      = Raise (MaximumPerTransferLimitError C (token_name tok)))
  /\ (validate_transfer env self transfer
      = Raise (MaximumPerTransferLimitError C (token_name tok))
      <-> transfer_amount transfer > C)
  /\ (validate_transfer env self transfer = Ok tt
      <-> transfer_amount transfer <= C).
Proof.
  intros self C Htok.
  assert (Hv : validate_transfer env self transfer
               = if C <? transfer_amount transfer
                 then Raise (MaximumPerTransferLimitError C (token_name tok))
                 else Ok tt).
  { unfold validate_transfer, throw_validation_error, token_attr. simpl.
    fold C. now rewrite Htok. }
  rewrite Hv.
  destruct (Z.ltb_spec C (transfer_amount transfer)) as [Hlt|Hge].
  - repeat split; intros; try lia; try discriminate; reflexivity.
  - repeat split; intros; try lia; try discriminate; reflexivity.
Qed.

Lemma amount_limit_validate name types check days custom cls base transfer :
  uses_amount_mixin cls = true ->
  persisted env days custom transfer ->
  available_base env days cls transfer = Ok base ->
  validate_transfer env
    (AggregateLimit_init name types check days custom cls) transfer
  = if base - prior_usage env days custom transfer <? transfer_amount transfer
    then throw_validation_error env
           (AggregateLimit_init name types check days custom cls) transfer
           (base - prior_usage env days custom transfer)
    else Ok tt.
Proof.
  intros Hcls Hp Hb. unfold validate_transfer, available, case_will_use. simpl.
  rewrite Hb. simpl.
  replace (used_aggregator env cls transfer (query_constructor env days custom))
    with (AggregateTransferAmountMixin_used_aggregator env transfer
            (query_constructor env days custom))
    by (destruct cls; [reflexivity..|discriminate]).
  rewrite (amount_used_aggregator_persisted _ _ _ Hp). simpl.
  destruct cls; [reflexivity..|discriminate].
Qed.

(** A total-amount limit on a stored transfer, in terms of the rows its
    queries select. *)
Lemma total_amount_limit_on_prior_usage
    name types check days total_amount custom transfer tok :
  let self :=
    new_TotalAmountLimit config name types check days total_amount custom in
  let C := py_int (total_amount * LIMIT_EXCHANGE_RATE config)%Q in
  let S := prior_usage env days custom transfer in
  let A := transfer_amount transfer in
  persisted env days custom transfer ->
  token transfer = Some tok ->
  (validate_transfer env self transfer = Ok tt <-> S + A <= C)
  /\ (~ S + A <= C ->
      validate_transfer env self transfer
      = Raise (TransferAmountLimitError C (C - S) days (token_name tok)))
  /\ (forall row,
        In row (prior_rows env days custom transfer) ->
        today env - timedelta days <= created row
        /\ In row (table env)
        /\ id row <> id transfer
        /\ user_eqb (sender_user row) (sender_user transfer) = true
        /\ transfer_status row <> REJECTED
        /\ forallb (fun c => c row) (custom transfer) = true).
Proof.
  intros self C S A Hp Htok.
  assert (Hv : validate_transfer env self transfer
               = if C - S <? A
                 then Raise (TransferAmountLimitError C (C - S) days (token_name tok))
                 else Ok tt).
  { unfold self, new_TotalAmountLimit. fold C.
    rewrite (amount_limit_validate name types check days custom
               (TotalAmountLimit C) C transfer eq_refl Hp eq_refl).
    fold C S A. unfold throw_validation_error, token_attr. simpl.
    now rewrite Htok. }
  rewrite Hv. split; [|split].
  - destruct (Z.ltb_spec (C - S) A); split; intros; try lia; try discriminate;
      reflexivity.
  - intros Hn. destruct (Z.ltb_spec (C - S) A); [reflexivity|lia].
  - intros row Hrow. apply prior_rows_spec in Hrow. tauto.
Qed.

(** A transfer-count limit on a stored transfer, in terms of the rows its
    queries select. *)
Lemma transfer_count_limit_on_prior_count
    name types check days N custom transfer tok :
  let self := new_TransferCountLimit name types check days N custom in
  let prior := prior_count env days custom transfer in
  persisted env days custom transfer ->
  token transfer = Some tok ->
  used_aggregator env (TransferCountLimit N) transfer
    (query_constructor env days custom) = Ok prior
  /\ (validate_transfer env self transfer = Ok tt <-> prior + 1 <= N)
  /\ (prior + 1 = N -> validate_transfer env self transfer = Ok tt)
  /\ (prior = N ->
      validate_transfer env self transfer
      = Raise (TransferCountLimitError N days (token_name tok))).
Proof.
  intros self prior Hp Htok.
  pose proof (count_used_aggregator_persisted _ _ _ Hp) as Hu. fold prior in Hu.
  assert (Hv : validate_transfer env self transfer
               = if N - prior <? 1
                 then Raise (TransferCountLimitError N days (token_name tok))
                 else Ok tt).
  { unfold self, new_TransferCountLimit, AggregateLimit_init,
      BaseTransferLimit_init, validate_transfer, available, case_will_use,
      used_aggregator, available_base, throw_validation_error, token_attr.
    cbn [class bind]. rewrite Hu. cbn [bind]. now rewrite Htok. }
  rewrite Hv. split; [exact Hu|].
  destruct (Z.ltb_spec (N - prior) 1); repeat split; intros; try lia;
    try discriminate; reflexivity.
Qed.

(** The base at a few balances: exact below 2^53, rounded to a float above,
    and an error for a balance no float can hold. *)
Lemma _total_from_balance_examples :
  _total_from_balance 0.5%float 500 = Ok 250
  /\ _total_from_balance 0.5%float 501 = Ok 250
  /\ _total_from_balance 0.5%float (2 ^ 54 + 3) = Ok 9007199254740994
  /\ _total_from_balance 1%float (2 ^ 53 + 3) = Ok 9007199254740996
  /\ _total_from_balance 0.5%float (10 ^ 400) = Raise OverflowError.
Proof.
  repeat split; vm_compute; reflexivity.
Qed.

(** A balance-fraction limit on a stored transfer, in terms of the rows its
    queries select and of the base the balance gives. *)
Lemma balance_fraction_limit_on_prior_usage
    name types check days fraction custom transfer acct tok base :
  persisted env days custom transfer ->
  sender_transfer_account transfer = Some acct ->
  token transfer = Some tok ->
  _total_from_balance fraction (balance acct) = Ok base ->
  validate_transfer env
    (new_BalanceFractionLimit name types check days fraction custom) transfer
  = if base - prior_usage env days custom transfer <? transfer_amount transfer
    then Raise (TransferBalanceFractionLimitError fraction
                  (base - prior_usage env days custom transfer) days
                  (token_name tok))
    else Ok tt.
Proof.
  intros Hp Hacct Htok Hbase.
  assert (Hb : available_base env days (BalanceFractionLimit fraction) transfer
               = Ok base).
  { unfold available_base, sender_transfer_account_attr. rewrite Hacct.
    exact Hbase. }
  unfold new_BalanceFractionLimit.
  rewrite (amount_limit_validate name types check days custom
             (BalanceFractionLimit fraction) base transfer eq_refl Hp Hb).
  unfold throw_validation_error, token_attr. simpl. now rewrite Htok.
Qed.

(** C3. A total-amount limit of scaled ceiling [C] over a window of [days]
    days (7 in the claim) validates a transfer of amount [A] that is itself
    stored and counted by the aggregation.  With [S] the sum of the amounts
    of the sender's other stored transfers that are not rejected, were
    created within the last [days] days and are accepted by the aggregation
    filter, the transfer passes exactly when [S + A <= C] and is rejected
    with [TransferAmountLimitError] otherwise; a row created more than
    [days] days ago does not count towards [S]. *)
Theorem total_amount_limit_window
    name types check days total_amount custom transfer tok :
  let self :=
    new_TotalAmountLimit config name types check days total_amount custom in
  let C := py_int (total_amount * LIMIT_EXCHANGE_RATE config)%Q in
  let S := prior_matching_sum env days custom transfer in
  let A := transfer_amount transfer in
  stored_and_counted env days custom transfer ->
  token transfer = Some tok ->
  (validate_transfer env self transfer = Ok tt <-> S + A <= C)
  /\ (~ S + A <= C ->
      validate_transfer env self transfer
      = Raise (TransferAmountLimitError C (C - S) days (token_name tok)))
  /\ (forall row,
        created row < today env - days * 86400000000 ->
        counts_as_prior env days custom transfer row = false).
Proof.
  intros self C S A Hs Htok.
  apply stored_and_counted_persisted in Hs.
  destruct (total_amount_limit_on_prior_usage name types check days total_amount
              custom transfer tok Hs Htok) as (Hiff & Hraise & _).
  rewrite prior_usage_explicit in Hiff, Hraise.
  split; [exact Hiff|]. split; [exact Hraise|].
  intros row Hold. unfold counts_as_prior.
  destruct (Z.leb_spec (today env - days * 86400000000) (created row)); [lia|].
  now rewrite andb_false_r.
Qed.

(** C4. A transfer-count limit of [N] transfers validates a transfer that is
    itself stored and counted by the aggregation.  The aggregated count
    includes the transfer and one is subtracted, so what is used is the
    number of the sender's other stored transfers that are not rejected,
    were created within the window and are accepted by the aggregation
    filter.  The transfer passes exactly when it is at most the [N]th such
    transfer: the [N]th passes and the [N+1]th is rejected with
    [TransferCountLimitError]. *)
Theorem transfer_count_limit_self_exclusion
    name types check days N custom transfer tok :
  let self := new_TransferCountLimit name types check days N custom in
  let prior := prior_matching_count env days custom transfer in
  stored_and_counted env days custom transfer ->
  token transfer = Some tok ->
  used_aggregator env (TransferCountLimit N) transfer
    (query_constructor env days custom) = Ok prior
  /\ (validate_transfer env self transfer = Ok tt <-> prior + 1 <= N)
  /\ (prior + 1 = N -> validate_transfer env self transfer = Ok tt)
  /\ (prior = N ->
      validate_transfer env self transfer
      = Raise (TransferCountLimitError N days (token_name tok))).
Proof.
  intros self prior Hs Htok.
  apply stored_and_counted_persisted in Hs.
  pose proof (transfer_count_limit_on_prior_count name types check days N custom
                transfer tok Hs Htok) as H.
  rewrite prior_count_explicit in H. exact H.
Qed.

(** C5, as the code has it.  A balance-fraction limit of fraction 0.5
    validates a transfer that is itself stored and counted by the
    aggregation.  Its base is [int(0.5 * balance)] of the balance the
    sender's account shows at this call (the limit holds the fraction and
    nothing of an earlier call); the transfer passes exactly when the
    sender's prior usage in the window plus its amount is within that base
    and is rejected with [TransferBalanceFractionLimitError] otherwise.
    With balance 500 and no prior usage, 250 passes and 251 is rejected. *)
Theorem balance_fraction_limit_live_balance
    name types check days custom transfer acct tok :
  let self := new_BalanceFractionLimit name types check days 0.5%float custom in
  let S := prior_matching_sum env days custom transfer in
  let A := transfer_amount transfer in
  stored_and_counted env days custom transfer ->
  sender_transfer_account transfer = Some acct ->
  token transfer = Some tok ->
  available_base env days (BalanceFractionLimit 0.5%float) transfer
  = _total_from_balance 0.5%float (balance acct)
  /\ (forall base,
        _total_from_balance 0.5%float (balance acct) = Ok base ->
        (validate_transfer env self transfer = Ok tt <-> S + A <= base)
        /\ (base < S + A ->
            validate_transfer env self transfer
            = Raise (TransferBalanceFractionLimitError 0.5%float (base - S) days
                       (token_name tok))))
  /\ (balance acct = 500 -> S = 0 ->
      (A = 250 -> validate_transfer env self transfer = Ok tt)
      /\ (A = 251 ->
          validate_transfer env self transfer
          = Raise (TransferBalanceFractionLimitError 0.5%float 250 days
                     (token_name tok)))).
Proof.
  intros self S A Hs Hacct Htok.
  apply stored_and_counted_persisted in Hs.
  assert (Hv : forall base,
             _total_from_balance 0.5%float (balance acct) = Ok base ->
             validate_transfer env self transfer
             = if base - S <? A
               then Raise (TransferBalanceFractionLimitError 0.5%float (base - S)
                             days (token_name tok))
               else Ok tt).
  { intros base Hbase. unfold self, S, A. rewrite <- prior_usage_explicit.
    now apply (balance_fraction_limit_on_prior_usage name types check days
                 0.5%float custom transfer acct tok base). }
  split; [|split].
  - unfold available_base, sender_transfer_account_attr. now rewrite Hacct.
  - intros base Hbase. rewrite (Hv base Hbase).
    destruct (Z.ltb_spec (base - S) A); repeat split; intros; try lia;
      try discriminate; reflexivity.
  - intros Hbal HS.
    assert (Hbase : _total_from_balance 0.5%float (balance acct) = Ok 250)
      by (rewrite Hbal; reflexivity).
    rewrite (Hv 250 Hbase), HS. split; intros ->; reflexivity.
Qed.

(** C5, the claim as stated fails: a withdrawal of 250 by a group account
    of balance 500 and without prior usage, to which the limit applies, does
    not pass when it is not counted by its own aggregation filter (it is
    flagged [exclude_from_limit_calcs]) or is not stored yet: the sum over no
    row is [None] and validation raises [TypeError]. *)
Lemma balance_fraction_limit_needs_counted_transfer :
  applies_to_transfer group_fraction_limit (excluded_withdrawal 250 500)
  = Ok (VBool true)
  /\ prior_matching_sum (excluded_env 250 500) 30
       withdrawal_or_agent_out_and_not_excluded_filter
       (excluded_withdrawal 250 500) = 0
  /\ validate_transfer (excluded_env 250 500) group_fraction_limit
       (excluded_withdrawal 250 500) = Raise TypeError
  /\ validate_transfer empty_env group_fraction_limit (group_withdrawal 250 500)
     = Raise TypeError.
Proof.
  repeat split; reflexivity.
Qed.

(** C10. The aggregator of [AggregateTransferAmountMixin] returns only
    when at least one row passes the aggregation filters, as is the case
    when the transfer under validation is stored and passes them itself;
    when no row does, the sum is [None] and the subtraction raises
    [TypeError].  [MinimumSentLimit.available_base] turns the [None] of an
    empty selection into 0. *)
Theorem amount_used_aggregator_needs_a_row cls days custom transfer :
  uses_amount_mixin cls = true ->
  (aggregated env days custom transfer = [] ->
   used_aggregator env cls transfer (query_constructor env days custom)
   = Raise TypeError)
  /\ (aggregated env days custom transfer <> [] ->
      used_aggregator env cls transfer (query_constructor env days custom)
      = Ok (sum_Z (map transfer_amount (aggregated env days custom transfer))
            - transfer_amount transfer))
  /\ (In transfer (aggregated env days custom transfer) ->
      returns (used_aggregator env cls transfer
                 (query_constructor env days custom)))
  /\ (forall reference,
        aggregated env days reference transfer = [] ->
        MinimumSentLimit_available_base env days reference transfer = 0).
Proof.
  intros Hcls.
  assert (Hu : used_aggregator env cls transfer (query_constructor env days custom)
               = match sql_sum (map transfer_amount
                                  (aggregated env days custom transfer)) with
                 | Some total => Ok (total - transfer_amount transfer)
                 | None => Raise TypeError
                 end).
  { destruct cls; [reflexivity..|discriminate]. }
  rewrite Hu. repeat split.
  - intros ->. reflexivity.
  - intros Hne. rewrite sql_sum_nonempty; [reflexivity|].
    destruct (aggregated env days custom transfer); [congruence|discriminate].
  - intros Hin. destruct (aggregated env days custom transfer); [contradiction|].
    eexists. reflexivity.
  - intros reference He. unfold MinimumSentLimit_available_base.
    change (Query_first env
              (query_constructor_filter_specifiable env days transfer
                 (session_query func_sum_transfer_amount) reference))
      with (sql_sum (map transfer_amount
                       (aggregated env days reference transfer))).
    now rewrite He.
Qed.

(** What a [MinimumSentLimit] decides: the base is the sum over the rows
    that pass its reference filter. *)
Lemma minimum_sent_limit_validate
    name types check days custom reference transfer tok :
  let self := new_MinimumSentLimit name types check days custom reference in
  let base := MinimumSentLimit_available_base env days reference transfer in
  persisted env days custom transfer ->
  token transfer = Some tok ->
  validate_transfer env self transfer = Ok tt
  <-> prior_usage env days custom transfer + transfer_amount transfer <= base.
Proof.
  intros self base Hp Htok. unfold self, new_MinimumSentLimit.
  rewrite (amount_limit_validate name types check days custom
             (MinimumSentLimit reference) base transfer eq_refl Hp eq_refl).
  unfold throw_validation_error, token_attr. simpl. rewrite Htok. simpl.
  fold base.
  destruct (Z.ltb_spec (base - prior_usage env days custom transfer)
              (transfer_amount transfer)); split; intros; try lia;
    try discriminate; reflexivity.
Qed.

(** C9, at the failing input.  With the default reference filter the base
    of the group account's [MinimumSentLimit] is 100, the standard deposit,
    although the account made no standard payment (their sum is 0): the
    withdrawal of 50 passes, where the documented rule rejects it. *)
Theorem minimum_sent_counts_standard_deposit :
  MinimumSentLimit_available_base deposit_env 30 regular_payment_filter
    (group_withdrawal 50 1000) = 100
  /\ documented_minimum_sent_base deposit_env 30 (group_withdrawal 50 1000) = 0
  /\ prior_usage deposit_env 30 withdrawal_or_agent_out_and_not_excluded_filter
       (group_withdrawal 50 1000) = 0
  /\ validate_transfer deposit_env group_minimum_sent_limit
       (group_withdrawal 50 1000) = Ok tt.
Proof.
  repeat split; reflexivity.
Qed.

End Validation.

(** ** Applicable transfers carry a token *)

Section Applicable.

Variable has_sufficient_tier : list (string * string) -> string -> string -> bool.
Variable config : Config.

Lemma accepted_transfer_has_token transfer :
  Forall (fun check =>
            returns_truthy (check transfer) ->
            exists tok u, token transfer = Some tok /\ sender_user transfer = Some u)
         (tl (composite_checks has_sufficient_tier)).
Proof.
  unfold composite_checks, tl. split_checks.
  all: unfold_checks; destruct (sender_user transfer) as [u|];
    destruct (token transfer) as [tok|]; simpl.
  all: run_check; refute_truthy; eauto.
Qed.

(** Every rule of the registry that applies to a transfer finds a token and
    a sender on it, so the error of a failed validation can name the
    token. *)
Lemma applicable_transfer_has_token limit transfer :
  In limit (LIMITS has_sufficient_tier config) ->
  returns_truthy (applies_to_transfer limit transfer) ->
  exists tok u, token transfer = Some tok /\ sender_user transfer = Some u.
Proof.
  intros Hin Happ.
  pose proof (accepted_transfer_has_token transfer) as Hc.
  rewrite Forall_forall in Hc.
  unfold applies_to_transfer in Happ. apply py_and_truthy in Happ.
  destruct Happ as [_ Happ]. revert Happ. apply Hc.
  unfold LIMITS in Hin. simpl in Hin.
  repeat (destruct Hin as [<-|Hin]; [simpl; tauto|]). contradiction.
Qed.

End Applicable.

(** ** The statements at concrete transfers *)


Ltac counted :=
  split;
  [ simpl; repeat (constructor; [simpl; intuition congruence|]); constructor
  | split;
    [ simpl; repeat first [left; reflexivity | right]
    | split; [discriminate | split; [vm_compute; discriminate | reflexivity]] ] ].

Lemma admin_involved_no_limits_witness :
  sempo_admin_involved holds_tier admin_payment = Ok (VBool true)
  /\ get_transfer_limits holds_tier demo_config admin_payment = Ok [].
Proof.
  split; [reflexivity|].
  exact (proj2 (admin_involved_no_limits holds_tier demo_config admin_payment
                  eq_refl)).
Defined.

Lemma maximum_amount_per_transfer_ceiling_witness :
  validate_transfer empty_env group_maximum_limit (group_withdrawal 5000 0)
  = Ok tt
  /\ validate_transfer empty_env group_maximum_limit (group_withdrawal 5001 0)
     = Raise (MaximumPerTransferLimitError 5000 "FOO").
Proof.
  split.
  - exact (proj1 (maximum_amount_per_transfer_ceiling demo_config empty_env
                    "GE Liquid Token - Group Account User"
                    [AGENT_OUT_PAYMENT; RawType WITHDRAWAL]
                    (is_group_and_liquid_token holds_tier) (inject_Z 5000)
                    (group_withdrawal 5000 0) foo_token eq_refl) eq_refl).
  - exact (proj1 (proj2 (maximum_amount_per_transfer_ceiling demo_config empty_env
                    "GE Liquid Token - Group Account User"
                    [AGENT_OUT_PAYMENT; RawType WITHDRAWAL]
                    (is_group_and_liquid_token holds_tier) (inject_Z 5000)
                    (group_withdrawal 5001 0) foo_token eq_refl)) eq_refl).
Defined.

Lemma total_amount_limit_window_witness :
  stored_and_counted (week_env 200) 7 matching_transfer_type_filter
    (week_payment 200)
  /\ prior_matching_sum (week_env 200) 7 matching_transfer_type_filter
       (week_payment 200) = 300
  /\ validate_transfer (week_env 200) week_limit (week_payment 200) = Ok tt
  /\ validate_transfer (week_env 201) week_limit (week_payment 201)
     = Raise (TransferAmountLimitError 500 200 7 "RSV").
Proof.
  assert (H200 : stored_and_counted (week_env 200) 7
                   matching_transfer_type_filter (week_payment 200))
    by counted.
  assert (H201 : stored_and_counted (week_env 201) 7
                   matching_transfer_type_filter (week_payment 201))
    by counted.
  split; [exact H200|]. split; [reflexivity|]. split.
  - apply (proj1 (total_amount_limit_window demo_config (week_env 200)
                    "Sempo Level 1: P7" GENERAL_PAYMENTS
                    (is_any_token_and_user_is_phone_but_not_kyc_verified holds_tier)
                    7 (inject_Z 500) matching_transfer_type_filter
                    (week_payment 200) reserve_token H200 eq_refl)).
    vm_compute. discriminate.
  - apply (proj1 (proj2 (total_amount_limit_window demo_config (week_env 201)
                    "Sempo Level 1: P7" GENERAL_PAYMENTS
                    (is_any_token_and_user_is_phone_but_not_kyc_verified holds_tier)
                    7 (inject_Z 500) matching_transfer_type_filter
                    (week_payment 201) reserve_token H201 eq_refl))).
    vm_compute. intros H. now apply H.
Defined.

Lemma transfer_count_limit_self_exclusion_witness :
  prior_matching_count (group_env 2 10 0) 30
    withdrawal_or_agent_out_and_not_excluded_filter (group_withdrawal 10 0) = 2
  /\ validate_transfer (group_env 2 10 0) (group_count_limit 3)
       (group_withdrawal 10 0) = Ok tt
  /\ validate_transfer (group_env 3 10 0) (group_count_limit 3)
       (group_withdrawal 10 0)
     = Raise (TransferCountLimitError 3 30 "FOO").
Proof.
  assert (H3 : stored_and_counted (group_env 2 10 0) 30
                 withdrawal_or_agent_out_and_not_excluded_filter
                 (group_withdrawal 10 0)) by counted.
  assert (H4 : stored_and_counted (group_env 3 10 0) 30
                 withdrawal_or_agent_out_and_not_excluded_filter
                 (group_withdrawal 10 0)) by counted.
  split; [reflexivity|]. split.
  - exact (proj1 (proj2 (proj2
             (transfer_count_limit_self_exclusion (group_env 2 10 0)
                "GE Liquid Token - Group Account User"
                [AGENT_OUT_PAYMENT; RawType WITHDRAWAL]
                (is_group_and_liquid_token holds_tier) 30 3
                withdrawal_or_agent_out_and_not_excluded_filter
                (group_withdrawal 10 0) foo_token H3 eq_refl))) eq_refl).
  - exact (proj2 (proj2 (proj2
             (transfer_count_limit_self_exclusion (group_env 3 10 0)
                "GE Liquid Token - Group Account User"
                [AGENT_OUT_PAYMENT; RawType WITHDRAWAL]
                (is_group_and_liquid_token holds_tier) 30 3
                withdrawal_or_agent_out_and_not_excluded_filter
                (group_withdrawal 10 0) foo_token H4 eq_refl))) eq_refl).
Defined.

(** One limit instance, three validations: balance 500 admits 250 and
    rejects 251; after the balance has dropped to 400 the same instance
    rejects 250. *)
Lemma balance_fraction_limit_live_balance_witness :
  validate_transfer (group_env 0 250 500) group_fraction_limit
    (group_withdrawal 250 500) = Ok tt
  /\ validate_transfer (group_env 0 251 500) group_fraction_limit
       (group_withdrawal 251 500)
     = Raise (TransferBalanceFractionLimitError 0.5%float 250 30 "FOO")
  /\ validate_transfer (group_env 0 250 400) group_fraction_limit
       (group_withdrawal 250 400)
     = Raise (TransferBalanceFractionLimitError 0.5%float 200 30 "FOO").
Proof.
  assert (H250 : stored_and_counted (group_env 0 250 500) 30
                   withdrawal_or_agent_out_and_not_excluded_filter
                   (group_withdrawal 250 500)) by counted.
  assert (H251 : stored_and_counted (group_env 0 251 500) 30
                   withdrawal_or_agent_out_and_not_excluded_filter
                   (group_withdrawal 251 500)) by counted.
  assert (H400 : stored_and_counted (group_env 0 250 400) 30
                   withdrawal_or_agent_out_and_not_excluded_filter
                   (group_withdrawal 250 400)) by counted.
  split; [|split].
  - exact (proj1 (proj2 (proj2
             (balance_fraction_limit_live_balance (group_env 0 250 500)
                "GE Liquid Token - Group Account User"
                [AGENT_OUT_PAYMENT; RawType WITHDRAWAL]
                (is_group_and_liquid_token holds_tier) 30
                withdrawal_or_agent_out_and_not_excluded_filter
                (group_withdrawal 250 500) {| balance := 500 |} foo_token
                H250 eq_refl eq_refl)) eq_refl eq_refl) eq_refl).
  - exact (proj2 (proj2 (proj2
             (balance_fraction_limit_live_balance (group_env 0 251 500)
                "GE Liquid Token - Group Account User"
                [AGENT_OUT_PAYMENT; RawType WITHDRAWAL]
                (is_group_and_liquid_token holds_tier) 30
                withdrawal_or_agent_out_and_not_excluded_filter
                (group_withdrawal 251 500) {| balance := 500 |} foo_token
                H251 eq_refl eq_refl)) eq_refl eq_refl) eq_refl).
  - refine (proj2 (proj1 (proj2
             (balance_fraction_limit_live_balance (group_env 0 250 400)
                "GE Liquid Token - Group Account User"
                [AGENT_OUT_PAYMENT; RawType WITHDRAWAL]
                (is_group_and_liquid_token holds_tier) 30
                withdrawal_or_agent_out_and_not_excluded_filter
                (group_withdrawal 250 400) {| balance := 400 |} foo_token
                H400 eq_refl eq_refl)) 200 eq_refl) _).
    vm_compute. reflexivity.
Defined.

Lemma amount_used_aggregator_needs_a_row_witness :
  used_aggregator empty_env (TotalAmountLimit 500) (week_payment 200)
    (query_constructor empty_env 7 matching_transfer_type_filter)
  = Raise TypeError
  /\ MinimumSentLimit_available_base empty_env 30 regular_payment_filter
       (group_withdrawal 50 1000) = 0
  /\ used_aggregator (week_env 200) (TotalAmountLimit 500) (week_payment 200)
       (query_constructor (week_env 200) 7 matching_transfer_type_filter)
     = Ok 300.
Proof.
  split; [|split].
  - exact (proj1 (amount_used_aggregator_needs_a_row empty_env
                    (TotalAmountLimit 500) 7 matching_transfer_type_filter
                    (week_payment 200) eq_refl) eq_refl).
  - exact (proj2 (proj2 (proj2
             (amount_used_aggregator_needs_a_row empty_env
                (MinimumSentLimit regular_payment_filter) 30
                withdrawal_or_agent_out_and_not_excluded_filter
                (group_withdrawal 50 1000) eq_refl)))
             regular_payment_filter eq_refl).
  - refine (proj1 (proj2
             (amount_used_aggregator_needs_a_row (week_env 200)
                (TotalAmountLimit 500) 7 matching_transfer_type_filter
                (week_payment 200) eq_refl)) _).
    vm_compute. discriminate.
Defined.

(** The sender of a payment gets verified: the limits of the payment before
    (phone verified) and after (individually KYC verified). *)
Lemma tier_checks_exclusion_witness :
  (exists limits,
      get_transfer_limits holds_tier demo_config (payment_by phone_user) = Ok limits
      /\ In "Sempo Level 1: P7" (map name limits)
      /\ Forall (fun limit => level_rule "2" limit = false) limits)
  /\ (exists limits,
        get_transfer_limits holds_tier demo_config (payment_by individual_user)
        = Ok limits
        /\ In "Sempo Level 2: P7" (map name limits)
        /\ Forall (fun limit => level_rule "1" limit = false) limits).
Proof.
  split.
  - destruct (tier_checks_exclusion holds_tier demo_config (payment_by phone_user))
      as (_ & _ & _ & _ & limits & Hget & H1 & _).
    destruct H1 as [Hno Hyes]; [eexists; split; reflexivity|].
    exists limits. split; [exact Hget|]. split.
    + apply Hyes; [reflexivity|discriminate].
    + eapply Forall_impl; [|exact Hno]. simpl. tauto.
  - destruct (tier_checks_exclusion holds_tier demo_config
                (payment_by individual_user))
      as (_ & _ & _ & _ & limits & Hget & _ & H2).
    destruct H2 as [Hno Hyes]; [eexists; split; reflexivity|].
    exists limits. split; [exact Hget|]. split.
    + apply Hyes; [reflexivity|discriminate].
    + eapply Forall_impl; [|exact Hno]. simpl. tauto.
Defined.

Lemma checks_total_except_sender_attributes_witness :
  Forall (fun check => returns_falsy (check orphan_transfer))
         (composite_checks holds_tier
          ++ [ sender_user_exists; user_individual_kyc_is_verified;
               user_business_or_multidoc_kyc_verified ])
  /\ Forall (fun check => returns_falsy (check orphan_transfer))
            (tl (composite_checks holds_tier)
             ++ [ token_is_liquid_type; token_is_reserve_type ]).
Proof.
  split.
  - exact (proj1 (proj2 (checks_total_except_sender_attributes holds_tier
                           orphan_transfer)) eq_refl).
  - exact (proj1 (proj2 (proj2 (checks_total_except_sender_attributes holds_tier
                                  orphan_transfer))) eq_refl).
Defined.

(** ** What the registry selects *)

Lemma comprehension_filter {A : Type} (f : A -> result pyval) (xs : list A) :
  Forall (fun x => returns (f x)) xs ->
  comprehension f xs
  = Ok (filter (fun x => match f x with Ok v => truthy v | Raise _ => false end) xs).
Proof.
  induction 1 as [|x rest [v Hx] _ IH]; simpl.
  - reflexivity.
  - rewrite Hx, IH. reflexivity.
Qed.

Section Selection.

Variable has_sufficient_tier : list (string * string) -> string -> string -> bool.
Variable config : Config.

Lemma LIMITS_filters_composite limit :
  In limit (LIMITS has_sufficient_tier config) ->
  In (application_filter limit) (tl (composite_checks has_sufficient_tier)).
Proof.
  intros Hin. unfold LIMITS in Hin. simpl in Hin.
  repeat (destruct Hin as [<-|Hin]; [simpl; tauto|]). contradiction.
Qed.

Lemma LIMITS_return transfer :
  Forall (fun limit => returns (applies_to_transfer limit transfer))
         (LIMITS has_sufficient_tier config).
Proof.
  apply Forall_forall. intros limit Hin.
  apply applies_to_transfer_returns.
  pose proof (composite_checks_return has_sufficient_tier transfer) as Hc.
  rewrite Forall_forall in Hc. apply Hc.
  apply LIMITS_filters_composite in Hin. unfold composite_checks in *.
  right. exact Hin.
Qed.

(** X1. [get_transfer_limits] returns for every transfer, whatever is
    missing on it: its result is the registry filtered, in registry order,
    by the truth value of [applies_to_transfer]. *)
Theorem get_transfer_limits_filter transfer :
  get_transfer_limits has_sufficient_tier config transfer
  = Ok (filter (fun limit => applies limit transfer)
               (LIMITS has_sufficient_tier config)).
Proof.
  unfold get_transfer_limits.
  rewrite comprehension_filter by apply LIMITS_return. reflexivity.
Qed.

Lemma no_limits_when_filters_falsy transfer :
  Forall (fun check => returns_falsy (check transfer))
         (tl (composite_checks has_sufficient_tier)) ->
  get_transfer_limits has_sufficient_tier config transfer = Ok [].
Proof.
  intros Hf. rewrite Forall_forall in Hf.
  unfold get_transfer_limits. apply comprehension_nothing.
  apply Forall_forall. intros limit Hin.
  apply applies_to_transfer_falsy. apply Hf.
  now apply LIMITS_filters_composite.
Qed.

(** X2. A transfer without sender user has no limits. *)
Theorem no_sender_no_limits transfer :
  sender_user transfer = None ->
  get_transfer_limits has_sufficient_tier config transfer = Ok [].
Proof.
  intros Hs. apply no_limits_when_filters_falsy.
  pose proof (checks_without_sender has_sufficient_tier transfer Hs) as H.
  apply Forall_app in H. destruct H as [H _].
  unfold composite_checks in *. now inversion H.
Qed.

(** X3. A transfer without token has no limits. *)
Theorem no_token_no_limits transfer :
  token transfer = None ->
  get_transfer_limits has_sufficient_tier config transfer = Ok [].
Proof.
  intros Ht. apply no_limits_when_filters_falsy.
  pose proof (checks_without_token has_sufficient_tier transfer Ht) as H.
  apply Forall_app in H. now destruct H as [H _].
Qed.

(** X4. No rule of the registry selects a payment that carries no subtype:
    payments are selected by (type, subtype) pairs only. *)
Theorem payment_without_subtype_no_limits transfer :
  transfer_type transfer = PAYMENT ->
  transfer_subtype transfer = None ->
  get_transfer_limits has_sufficient_tier config transfer = Ok [].
Proof.
  intros Hty Hsub. unfold get_transfer_limits. apply comprehension_nothing.
  unfold LIMITS.
  repeat (apply Forall_cons;
          [ unfold applies_to_transfer; simpl; rewrite ?Hty, ?Hsub; simpl;
            eexists; split; reflexivity | ]).
  apply Forall_nil.
Qed.

(** *** Tiers *)

Lemma some_tier_accepts transfer :
  returns_truthy (is_user_and_any_token has_sufficient_tier transfer) ->
  returns_truthy
    (is_any_token_and_user_is_not_phone_and_not_kyc_verified has_sufficient_tier transfer)
  \/ returns_truthy
       (is_any_token_and_user_is_phone_but_not_kyc_verified has_sufficient_tier transfer)
  \/ returns_truthy (is_any_token_and_user_is_kyc_verified has_sufficient_tier transfer)
  \/ returns_truthy
       (is_any_token_and_user_is_kyc_business_verified has_sufficient_tier transfer).
Proof.
  unfold_checks. destruct (sender_user transfer) as [u|]; simpl.
  all: run_check; refute_truthy.
  all: first [ left; solve_returns
             | right; left; solve_returns
             | right; right; left; solve_returns
             | right; right; right; solve_returns ].
Qed.

(** [In "name" (map name limits)] for the rule at position [n] of the
    registry, from the facts [Hspec] (what the result holds), [Hsel] (the
    selector matches) and [H] (the filter accepts). *)
Tactic Notation "rule_at" integer(n) ident(Hspec) ident(Hsel) ident(H) :=
  apply in_map_iff; eexists;
  (split;
   [ | apply Hspec; split;
       [ unfold LIMITS; do n right; left; reflexivity
       | apply py_and_truthy; split;
         [ eexists; split; [reflexivity|exact Hsel] | exact H ] ] ]);
  [ reflexivity ].

(** X5. Every transfer of a sender who is not exempt and whose token is of
    a known type falls into at least one verification tier, so a general
    payment of such a sender is bound by the P7 and the P30 rule of some
    level. *)
Theorem sender_with_token_has_a_tier transfer :
  returns_truthy (is_user_and_any_token has_sufficient_tier transfer) ->
  (returns_truthy
     (is_any_token_and_user_is_not_phone_and_not_kyc_verified has_sufficient_tier transfer)
   \/ returns_truthy
        (is_any_token_and_user_is_phone_but_not_kyc_verified has_sufficient_tier transfer)
   \/ returns_truthy (is_any_token_and_user_is_kyc_verified has_sufficient_tier transfer)
   \/ returns_truthy
        (is_any_token_and_user_is_kyc_business_verified has_sufficient_tier transfer))
  /\ (transfer_type transfer = PAYMENT ->
      transfer_subtype transfer <> None ->
      exists limits level,
        get_transfer_limits has_sufficient_tier config transfer = Ok limits
        /\ In level ["0"; "1"; "2"; "3"]
        /\ In ("Sempo Level " ++ level ++ ": P7")%string (map name limits)
        /\ In ("Sempo Level " ++ level ++ ": P30")%string (map name limits)).
Proof.
  intros Hany. pose proof (some_tier_accepts transfer Hany) as Htier.
  split; [exact Htier|]. intros Hty Hsub.
  pose proof (general_payment_selected transfer Hty Hsub) as Hsel.
  destruct (get_transfer_limits_spec has_sufficient_tier config transfer)
    as [limits [Hget Hspec]].
  exists limits.
  destruct Htier as [H|[H|[H|H]]].
  - exists "0". split; [exact Hget|]. split; [simpl; tauto|]. split.
    + rule_at 0 Hspec Hsel H.
    + rule_at 1 Hspec Hsel H.
  - exists "1". split; [exact Hget|]. split; [simpl; tauto|]. split.
    + rule_at 3 Hspec Hsel H.
    + rule_at 4 Hspec Hsel H.
  - exists "2". split; [exact Hget|]. split; [simpl; tauto|]. split.
    + rule_at 6 Hspec Hsel H.
    + rule_at 7 Hspec Hsel H.
  - exists "3". split; [exact Hget|]. split; [simpl; tauto|]. split.
    + rule_at 10 Hspec Hsel H.
    + rule_at 11 Hspec Hsel H.
Qed.

(** *** Blocked directions *)

Lemma no_transfer_allowed_raises env name types check transfer tok :
  token transfer = Some tok ->
  validate_transfer env (new_NoTransferAllowedLimit name types check) transfer
  = Raise (NoTransferAllowedLimitError (token_name tok)).
Proof.
  intros Htok. unfold validate_transfer, throw_validation_error, token_attr.
  simpl. now rewrite Htok.
Qed.

Lemma withdrawal_or_deposit_selected transfer :
  transfer_type transfer = WITHDRAWAL \/ transfer_type transfer = DEPOSIT ->
  type_in (transfer_type transfer)
    (map force_tuple [RawType WITHDRAWAL; RawType DEPOSIT])
  || pair_in (transfer_type transfer) (transfer_subtype transfer)
       (map force_tuple [RawType WITHDRAWAL; RawType DEPOSIT]) = true.
Proof.
  intros [->| ->]; reflexivity.
Qed.

Lemma cash_out_selected transfer :
  transfer_type transfer = WITHDRAWAL
  \/ (transfer_type transfer = PAYMENT
      /\ transfer_subtype transfer = Some AGENT_OUT) ->
  type_in (transfer_type transfer)
    (map force_tuple [AGENT_OUT_PAYMENT; RawType WITHDRAWAL])
  || pair_in (transfer_type transfer) (transfer_subtype transfer)
       (map force_tuple [AGENT_OUT_PAYMENT; RawType WITHDRAWAL]) = true.
Proof.
  intros [->|[-> ->]]; [|reflexivity].
  now destruct (transfer_subtype transfer) as [[| | |]|].
Qed.

(** The rule at position [n] of the registry is among the limits of the
    transfer. *)
Tactic Notation "selected_at" integer(n) ident(Hspec) ident(Hsel) ident(H) :=
  apply Hspec; split;
  [ unfold LIMITS; do n right; left; reflexivity
  | apply py_and_truthy; split;
    [ eexists; split; [reflexivity|exact Hsel] | exact H ] ].

(** X6. A sender below KYC verification (levels 0 and 1) cannot withdraw or
    deposit: among the limits of such a transfer is a rule whose validation
    raises [NoTransferAllowedLimitError], whatever the history. *)
Theorem unverified_sender_cannot_withdraw_or_deposit transfer :
  returns_truthy
    (is_any_token_and_user_is_not_phone_and_not_kyc_verified has_sufficient_tier transfer)
  \/ returns_truthy
       (is_any_token_and_user_is_phone_but_not_kyc_verified has_sufficient_tier transfer) ->
  transfer_type transfer = WITHDRAWAL \/ transfer_type transfer = DEPOSIT ->
  exists limits limit tok,
    get_transfer_limits has_sufficient_tier config transfer = Ok limits
    /\ In limit limits
    /\ token transfer = Some tok
    /\ forall env,
         validate_transfer env limit transfer
         = Raise (NoTransferAllowedLimitError (token_name tok)).
Proof.
  intros Htier Hty.
  pose proof (withdrawal_or_deposit_selected transfer Hty) as Hsel.
  destruct (get_transfer_limits_spec has_sufficient_tier config transfer)
    as [limits [Hget Hspec]].
  exists limits.
  destruct Htier as [H|H]; eexists.
  - assert (Hin : In (new_NoTransferAllowedLimit "Sempo Level 0: WD30"
                        [RawType WITHDRAWAL; RawType DEPOSIT]
                        (is_any_token_and_user_is_not_phone_and_not_kyc_verified
                           has_sufficient_tier)) limits)
      by (selected_at 2 Hspec Hsel H).
    pose proof Hin as Happ. apply Hspec in Happ. destruct Happ as [HL Happ].
    destruct (applicable_transfer_has_token has_sufficient_tier config _ _ HL Happ)
      as (tok & u & Htok & _).
    exists tok. repeat split; [exact Hget|exact Hin|exact Htok|].
    intros env. now apply no_transfer_allowed_raises.
  - assert (Hin : In (new_NoTransferAllowedLimit "Sempo Level 1: WD30"
                        [RawType WITHDRAWAL; RawType DEPOSIT]
                        (is_any_token_and_user_is_phone_but_not_kyc_verified
                           has_sufficient_tier)) limits)
      by (selected_at 5 Hspec Hsel H).
    pose proof Hin as Happ. apply Hspec in Happ. destruct Happ as [HL Happ].
    destruct (applicable_transfer_has_token has_sufficient_tier config _ _ HL Happ)
      as (tok & u & Htok & _).
    exists tok. repeat split; [exact Hget|exact Hin|exact Htok|].
    intros env. now apply no_transfer_allowed_raises.
Qed.

(** X7. A sender without group account role cannot cash out a liquid token:
    a withdrawal or an agent-out payment of such a sender has a rule whose
    validation raises [NoTransferAllowedLimitError], whatever the
    history. *)
Theorem standard_user_cannot_cash_out_liquid_token transfer :
  returns_truthy (is_user_and_liquid_token has_sufficient_tier transfer) ->
  transfer_type transfer = WITHDRAWAL
  \/ (transfer_type transfer = PAYMENT
      /\ transfer_subtype transfer = Some AGENT_OUT) ->
  exists limits limit tok,
    get_transfer_limits has_sufficient_tier config transfer = Ok limits
    /\ In limit limits
    /\ token transfer = Some tok
    /\ forall env,
         validate_transfer env limit transfer
         = Raise (NoTransferAllowedLimitError (token_name tok)).
Proof.
  intros H Hty.
  pose proof (cash_out_selected transfer Hty) as Hsel.
  destruct (get_transfer_limits_spec has_sufficient_tier config transfer)
    as [limits [Hget Hspec]].
  exists limits. eexists.
  assert (Hin : In (new_NoTransferAllowedLimit "GE Liquid Token - Standard User"
                      [AGENT_OUT_PAYMENT; RawType WITHDRAWAL]
                      (is_user_and_liquid_token has_sufficient_tier)) limits)
    by (selected_at 14 Hspec Hsel H).
  pose proof Hin as Happ. apply Hspec in Happ. destruct Happ as [HL Happ].
  destruct (applicable_transfer_has_token has_sufficient_tier config _ _ HL Happ)
    as (tok & u & Htok & _).
  exists tok. repeat split; [exact Hget|exact Hin|exact Htok|].
  intros env. now apply no_transfer_allowed_raises.
Qed.

Lemma group_excludes_standard transfer :
  returns_truthy (is_group_and_liquid_token has_sufficient_tier transfer) ->
  returns_falsy (is_user_and_liquid_token has_sufficient_tier transfer).
Proof.
  unfold_checks. destruct (sender_user transfer) as [u|]; simpl.
  all: run_check; refute_truthy; solve_returns.
Qed.

(** X8. A cash-out (withdrawal or agent-out payment) of a liquid token by a
    group account is bound by the four group rules of the registry (count,
    balance fraction, minimum sent, maximum per transfer) and not by the
    rule that blocks standard users. *)
Theorem group_account_cash_out_rules transfer :
  returns_truthy (is_group_and_liquid_token has_sufficient_tier transfer) ->
  transfer_type transfer = WITHDRAWAL
  \/ (transfer_type transfer = PAYMENT
      /\ transfer_subtype transfer = Some AGENT_OUT) ->
  exists limits,
    get_transfer_limits has_sufficient_tier config transfer = Ok limits
    /\ In (new_TransferCountLimit "GE Liquid Token - Group Account User"
             [AGENT_OUT_PAYMENT; RawType WITHDRAWAL]
             (is_group_and_liquid_token has_sufficient_tier) 30 1
             withdrawal_or_agent_out_and_not_excluded_filter) limits
    /\ In (new_BalanceFractionLimit "GE Liquid Token - Group Account User"
             [AGENT_OUT_PAYMENT; RawType WITHDRAWAL]
             (is_group_and_liquid_token has_sufficient_tier) 30 0.5%float
             withdrawal_or_agent_out_and_not_excluded_filter) limits
    /\ In (new_MinimumSentLimit "GE Liquid Token - Group Account User"
             [AGENT_OUT_PAYMENT; RawType WITHDRAWAL]
             (is_group_and_liquid_token has_sufficient_tier) 30
             withdrawal_or_agent_out_and_not_excluded_filter
             regular_payment_filter) limits
    /\ In (new_MaximumAmountPerTransferLimit config
             "GE Liquid Token - Group Account User"
             [AGENT_OUT_PAYMENT; RawType WITHDRAWAL]
             (is_group_and_liquid_token has_sufficient_tier)
             (TRANSFER_LIMITS config "LT.MaxAm")) limits
    /\ Forall (fun limit => name limit <> "GE Liquid Token - Standard User")
              limits.
Proof.
  intros H Hty.
  pose proof (cash_out_selected transfer Hty) as Hsel.
  pose proof (group_excludes_standard transfer H) as Hstd.
  destruct (get_transfer_limits_spec has_sufficient_tier config transfer)
    as [limits [Hget Hspec]].
  exists limits. split; [exact Hget|].
  split; [selected_at 15 Hspec Hsel H|].
  split; [selected_at 16 Hspec Hsel H|].
  split; [selected_at 17 Hspec Hsel H|].
  split; [selected_at 18 Hspec Hsel H|].
  apply Forall_forall. intros limit Hl. apply Hspec in Hl.
  destruct Hl as [Hin Happ]. unfold LIMITS in Hin. simpl in Hin.
  repeat (destruct Hin as [<-|Hin];
          [ first [ simpl; discriminate
                  | exfalso; unfold applies_to_transfer in Happ;
                    apply py_and_truthy in Happ;
                    destruct Happ as [_ Happ]; simpl in Happ;
                    revert Happ; apply returns_falsy_not_truthy;
                    exact Hstd ] | ]).
  contradiction.
Qed.

End Selection.

(** ** What an aggregate limit decides on any transfer *)

Section Decisions.

Variable config : Config.
Variable env : Env.

(** X9. A total-amount limit decides by the aggregated sum alone: when no
    row passes the filters validation raises [TypeError]; otherwise the
    transfer passes exactly when the sum over the rows that pass them is at
    most the ceiling, whether or not the transfer is one of those rows. *)
Theorem total_amount_limit_decided_by_sum
    name types check days total_amount custom transfer tok :
  let self :=
    new_TotalAmountLimit config name types check days total_amount custom in
  let C := py_int (total_amount * LIMIT_EXCHANGE_RATE config)%Q in
  let rows := aggregated env days custom transfer in
  let total := sum_Z (map transfer_amount rows) in
  token transfer = Some tok ->
  (rows = [] -> validate_transfer env self transfer = Raise TypeError)
  /\ (rows <> [] ->
      (validate_transfer env self transfer = Ok tt <-> total <= C)
      /\ (C < total ->
          validate_transfer env self transfer
          = Raise (TransferAmountLimitError C
                     (C - (total - transfer_amount transfer)) days
                     (token_name tok)))).
Proof.
  intros self C rows total Htok.
  assert (Hv : validate_transfer env self transfer
               = match sql_sum (map transfer_amount rows) with
                 | None => Raise TypeError
                 | Some t =>
                     if C - (t - transfer_amount transfer) <? transfer_amount transfer
                     then Raise (TransferAmountLimitError C
                                   (C - (t - transfer_amount transfer)) days
                                   (token_name tok))
                     else Ok tt
                 end).
  { unfold self, new_TotalAmountLimit, AggregateLimit_init,
      BaseTransferLimit_init, validate_transfer, available, case_will_use,
      used_aggregator, available_base, throw_validation_error, token_attr,
      AggregateTransferAmountMixin_used_aggregator.
    cbn [class bind]. rewrite sum_query_first. fold rows C.
    destruct (sql_sum (map transfer_amount rows)); cbn [bind]; [|reflexivity].
    now rewrite Htok. }
  rewrite Hv. split.
  - intros ->. reflexivity.
  - intros Hne. rewrite (sql_sum_nonempty (map transfer_amount rows)).
    + fold total.
      destruct (Z.ltb_spec (C - (total - transfer_amount transfer))
                  (transfer_amount transfer)); repeat split; intros;
        try lia; try discriminate; reflexivity.
    + destruct rows; [congruence|discriminate].
Qed.

(** X10. A transfer-count limit decides by the number of rows that pass the
    filters: the transfer passes exactly when there are at most [N] of
    them, whether or not it is one of them, and validation never fails on
    an empty selection. *)
Theorem transfer_count_limit_decided_by_count
    name types check days N custom transfer tok :
  let self := new_TransferCountLimit name types check days N custom in
  let count := Z.of_nat (List.length (aggregated env days custom transfer)) in
  token transfer = Some tok ->
  (validate_transfer env self transfer = Ok tt <-> count <= N)
  /\ (N < count ->
      validate_transfer env self transfer
      = Raise (TransferCountLimitError N days (token_name tok))).
Proof.
  intros self count Htok.
  assert (Hv : validate_transfer env self transfer
               = if N - (count - 1) <? 1
                 then Raise (TransferCountLimitError N days (token_name tok))
                 else Ok tt).
  { unfold self, new_TransferCountLimit, AggregateLimit_init,
      BaseTransferLimit_init, validate_transfer, available, case_will_use,
      used_aggregator, available_base, throw_validation_error, token_attr,
      TransferCountLimit_used_aggregator.
    cbn [class bind]. rewrite count_query_first. fold count. cbn [bind].
    now rewrite Htok. }
  rewrite Hv.
  destruct (Z.ltb_spec (N - (count - 1)) 1); repeat split; intros; try lia;
    try discriminate; reflexivity.
Qed.


End Decisions.

(** ** Windows *)

Lemma filter_sum_length_le (P Q : CreditTransfer -> bool) rows :
  (forall row, In row rows -> P row = true -> Q row = true) ->
  (forall row, In row rows -> 0 <= transfer_amount row) ->
  incl (filter P rows) (filter Q rows)
  /\ sum_Z (map transfer_amount (filter P rows))
     <= sum_Z (map transfer_amount (filter Q rows))
  /\ (List.length (filter P rows) <= List.length (filter Q rows))%nat.
Proof.
  induction rows as [|row rows IH]; intros Himp Hpos.
  - simpl. repeat split; [apply incl_refl|lia|lia].
  - destruct IH as (Hincl & Hsum & Hlen).
    + intros r Hr. apply Himp. now right.
    + intros r Hr. apply Hpos. now right.
    + assert (Hrow : 0 <= transfer_amount row) by (apply Hpos; now left).
      pose proof (Himp row (or_introl eq_refl)) as Hpq.
      cbn [filter]. destruct (P row) eqn:HP.
      * rewrite (Hpq eq_refl). cbn [map List.length]. rewrite !sum_Z_cons.
        repeat split; [|lia|lia].
        intros r [<-|Hr]; [now left|right; now apply Hincl].
      * destruct (Q row); cbn [map List.length]; rewrite ?sum_Z_cons;
          repeat split; try lia.
        -- intros r Hr. right. now apply Hincl.
        -- exact Hincl.
Qed.

(** X11. A longer window sees every row a shorter one sees: with amounts
    that are not negative, neither the prior usage nor the prior count of a
    transfer decreases when the window grows. *)
Theorem longer_window_counts_more env d1 d2 custom transfer :
  d1 <= d2 ->
  (forall row, In row (table env) -> 0 <= transfer_amount row) ->
  incl (prior_rows env d1 custom transfer) (prior_rows env d2 custom transfer)
  /\ prior_usage env d1 custom transfer <= prior_usage env d2 custom transfer
  /\ prior_count env d1 custom transfer <= prior_count env d2 custom transfer.
Proof.
  intros Hd Hpos.
  unfold prior_count, prior_usage, prior_rows, aggregated, matching_rows.
  rewrite !filter_twice.
  match goal with
  | |- incl (filter ?P _) (filter ?Q _) /\ _ =>
      destruct (filter_sum_length_le P Q (table env)) as (Hi & Hs & Hl)
  end.
  - intros row _.
    unfold query_constructor, query_constructor_filter_specifiable,
      combine_filter_lists, Query_filter, session_query. simpl.
    rewrite !andb_true_iff, !Z.geb_le. unfold timedelta. intuition lia.
  - exact Hpos.
  - repeat split; [exact Hi|exact Hs|lia].
Qed.

(** ** KYC applications *)

(** X13. No single KYC application counts both as individually verified
    and as business or multi-document verified, so a sender with at most one
    application on file is never in levels 2 and 3 at once. *)
Theorem single_application_one_kyc_level has_sufficient_tier transfer u :
  sender_user transfer = Some u ->
  (List.length (kyc_applications u) <= 1)%nat ->
  ~ (returns_truthy
       (is_any_token_and_user_is_kyc_verified has_sufficient_tier transfer)
     /\ returns_truthy
          (is_any_token_and_user_is_kyc_business_verified has_sufficient_tier
             transfer)).
Proof.
  intros Hu Hlen [H2 H3].
  apply py_and_truthy in H2. destruct H2 as [_ [v2 [E2 T2]]].
  apply py_and_truthy in H3. destruct H3 as [_ [v3 [E3 T3]]].
  unfold user_individual_kyc_is_verified, user_business_or_multidoc_kyc_verified,
    _sender_matches_kyc_criteria in E2, E3.
  rewrite Hu in E2, E3.
  destruct (kyc_applications u) as [|app [|app' apps]];
    [ simpl in E2; inversion E2; subst; discriminate | | simpl in Hlen; lia ].
  cbn [find] in E2, E3.
  destruct (String.eqb_spec (kyc_status app) "VERIFIED") as [Hs|Hs];
    [|simpl in E2; inversion E2; subst; discriminate].
  destruct (multiple_documents_verified app);
    [rewrite andb_false_r in E2; inversion E2; subst; discriminate|].
  destruct (String.eqb_spec (kyc_type app) "INDIVIDUAL") as [Hi|Hi];
    [|simpl in E2; inversion E2; subst; discriminate].
  rewrite Hi in E3. simpl in E3. inversion E3; subst; discriminate.
Qed.

(** ** Filter lists *)

(** X14. [combine_filter_lists] concatenates the filter lists in order. *)
Theorem combine_filter_lists_concat {A : Type} (filter_lists : list (list A)) :
  combine_filter_lists filter_lists = List.concat filter_lists.
Proof.
  unfold combine_filter_lists.
  assert (H : forall acc, fold_left (fun f i => f ++ i) filter_lists acc
                          = acc ++ List.concat filter_lists).
  { induction filter_lists as [|l ls IH]; intros acc; simpl.
    - now rewrite app_nil_r.
    - now rewrite IH, app_assoc. }
  apply H.
Qed.

(** ** Argument handling of the search endpoint *)

Lemma str_in_In x l : SearchAPI.str_in x l = true -> In x l.
Proof.
  unfold SearchAPI.str_in. rewrite existsb_exists.
  intros [y [Hin He]]. apply String.eqb_eq in He. now subst.
Qed.

(** X17. Argument handling of the search endpoint never fails on a
    dictionary lookup.  It answers 400 for, in this order, a search type
    other than the two known ones, a sort key that is not an option of the
    search type, or an order other than ASC and DESC, quoting the offending
    value; a missing or empty argument counts as transfer_accounts, rank
    and DESC.  Otherwise every accepted sort key, with its sender_ or
    recipient_ prefix dropped, is a key of the column table. *)
Theorem handle_arguments_outcome (args : string -> option string) :
  let search_type := SearchAPI.arg_or args "search_type" "transfer_accounts" in
  let sort_by_arg := SearchAPI.arg_or args "sort_by" "rank" in
  let order_arg := SearchAPI.arg_or args "order" "DESC" in
  let type_ok :=
    SearchAPI.str_in search_type ["transfer_accounts"; "credit_transfers"] in
  let sort_ok :=
    match SearchAPI.getitem SearchAPI.sorting_options search_type with
    | Some options => SearchAPI.str_in sort_by_arg options
    | None => false
    end in
  let order_ok := SearchAPI.str_in order_arg ["ASC"; "DESC"] in
  match SearchAPI.handle_arguments args with
  | SearchAPI.BadRequest message =>
      (type_ok = false
       /\ message
          = ("Invalid search_type " ++ SearchAPI.quoted search_type
             ++ ". Please use type 'transfer_accounts' or 'credit_transfers'")%string)
      \/ (type_ok = true /\ sort_ok = false
          /\ exists options,
               SearchAPI.getitem SearchAPI.sorting_options search_type
               = Some options
               /\ message
                  = ("Invalid sort_by value " ++ SearchAPI.quoted sort_by_arg
                     ++ ". Please use one of the following: "
                     ++ String.concat ", " (map SearchAPI.quoted options))%string)
      \/ (type_ok = true /\ sort_ok = true /\ order_ok = false
          /\ message
             = ("Invalid order value " ++ SearchAPI.quoted order_arg
                ++ ". Please use 'ASC' or 'DESC'")%string)
  | SearchAPI.KeyError => False
  | SearchAPI.Proceed search_string' search_type' sort_by_arg' sort_by order =>
      type_ok = true /\ sort_ok = true /\ order_ok = true
      /\ search_string' = SearchAPI.arg_or args "search_string" EmptyString
      /\ search_type' = search_type
      /\ sort_by_arg' = sort_by_arg
      /\ SearchAPI.getitem SearchAPI.sort_types_to_database_types
           (SearchAPI.replace "recipient_" EmptyString
              (SearchAPI.replace "sender_" EmptyString sort_by_arg))
         = Some sort_by
      /\ order = (if String.eqb order_arg "ASC" then SearchAPI.asc
                  else SearchAPI.desc)
  end.
Proof.
  intros search_type sort_by_arg order_arg type_ok sort_ok order_ok.
  unfold SearchAPI.handle_arguments.
  fold search_type sort_by_arg order_arg. fold type_ok.
  destruct type_ok eqn:Htype; cbn [negb].
  2: now left.
  assert (Hopt : exists options,
             SearchAPI.getitem SearchAPI.sorting_options search_type = Some options).
  { apply str_in_In in Htype.
    destruct Htype as [<-|[<-|[]]]; eexists; reflexivity. }
  destruct Hopt as [options Hopt]. unfold sort_ok. rewrite Hopt.
  destruct (SearchAPI.str_in sort_by_arg options) eqn:Hsort; cbn [negb].
  2: { right. left. repeat split. now exists options. }
  assert (Hcol : exists column,
             SearchAPI.getitem SearchAPI.sort_types_to_database_types
               (SearchAPI.replace "recipient_" EmptyString
                  (SearchAPI.replace "sender_" EmptyString sort_by_arg))
             = Some column).
  { apply str_in_In in Hsort. apply str_in_In in Htype.
    destruct Htype as [E|[E|[]]]; rewrite <- E in Hopt;
      injection Hopt as <-; simpl in Hsort;
      repeat (destruct Hsort as [<-|Hsort]; [eexists; reflexivity|]);
      contradiction. }
  destruct Hcol as [column Hcol]. rewrite Hcol.
  fold order_ok. destruct order_ok eqn:Horder; cbn [negb].
  - now repeat split.
  - right. right. now repeat split.
Qed.

Lemma handle_arguments_examples :
  SearchAPI.handle_arguments
    (query_string [ ("search_type", "credit_transfers");
                    ("sort_by", "recipient_email"); ("order", "ASC") ])
  = SearchAPI.Proceed EmptyString "credit_transfers" "recipient_email"
      (SearchAPI.ViewColumn "first_name") SearchAPI.asc
  /\ SearchAPI.handle_arguments (query_string [("sort_by", "pizza")])
     = SearchAPI.BadRequest
         ("Invalid sort_by value 'pizza'. Please use one of the following: "
          ++ "'first_name', 'last_name', 'email', 'date_account_created', "
          ++ "'rank', 'balance', 'status'")%string.
Proof.
  split; reflexivity.
Qed.

(** ** The further statements at concrete transfers *)

Lemma no_sender_no_limits_witness :
  get_transfer_limits holds_tier demo_config orphan_transfer = Ok [].
Proof.
  exact (no_sender_no_limits holds_tier demo_config orphan_transfer eq_refl).
Defined.

Lemma no_token_no_limits_witness :
  get_transfer_limits holds_tier demo_config payment_without_token = Ok [].
Proof.
  exact (no_token_no_limits holds_tier demo_config payment_without_token
           eq_refl).
Defined.

Lemma payment_without_subtype_no_limits_witness :
  get_transfer_limits holds_tier demo_config payment_without_subtype = Ok [].
Proof.
  exact (payment_without_subtype_no_limits holds_tier demo_config
           payment_without_subtype eq_refl eq_refl).
Defined.

Lemma sender_with_token_has_a_tier_witness :
  exists limits level,
    get_transfer_limits holds_tier demo_config (payment_by plain_user) = Ok limits
    /\ In level ["0"; "1"; "2"; "3"]
    /\ In ("Sempo Level " ++ level ++ ": P7")%string (map name limits)
    /\ In ("Sempo Level " ++ level ++ ": P30")%string (map name limits).
Proof.
  refine (proj2 (sender_with_token_has_a_tier holds_tier demo_config
                   (payment_by plain_user) _) eq_refl _).
  - eexists. split; reflexivity.
  - discriminate.
Defined.

Lemma unverified_sender_cannot_withdraw_or_deposit_witness :
  exists limits limit tok,
    get_transfer_limits holds_tier demo_config
      (withdrawal_by phone_user reserve_token) = Ok limits
    /\ In limit limits
    /\ token (withdrawal_by phone_user reserve_token) = Some tok
    /\ forall env,
         validate_transfer env limit (withdrawal_by phone_user reserve_token)
         = Raise (NoTransferAllowedLimitError (token_name tok)).
Proof.
  refine (unverified_sender_cannot_withdraw_or_deposit holds_tier demo_config
            (withdrawal_by phone_user reserve_token) _ (or_introl eq_refl)).
  right. eexists. split; reflexivity.
Defined.

Lemma standard_user_cannot_cash_out_liquid_token_witness :
  exists limits limit tok,
    get_transfer_limits holds_tier demo_config
      (withdrawal_by individual_user foo_token) = Ok limits
    /\ In limit limits
    /\ token (withdrawal_by individual_user foo_token) = Some tok
    /\ forall env,
         validate_transfer env limit (withdrawal_by individual_user foo_token)
         = Raise (NoTransferAllowedLimitError (token_name tok)).
Proof.
  refine (standard_user_cannot_cash_out_liquid_token holds_tier demo_config
            (withdrawal_by individual_user foo_token) _ (or_introl eq_refl)).
  eexists. split; reflexivity.
Defined.

Lemma group_account_cash_out_rules_witness :
  exists limits,
    get_transfer_limits holds_tier demo_config (group_withdrawal 10 500)
    = Ok limits
    /\ In group_fraction_limit limits
    /\ In (group_count_limit 1) limits
    /\ Forall (fun limit => name limit <> "GE Liquid Token - Standard User")
              limits.
Proof.
  destruct (group_account_cash_out_rules holds_tier demo_config
              (group_withdrawal 10 500))
    as (limits & Hget & Hcount & Hfraction & _ & _ & Hstd).
  - eexists. split; reflexivity.
  - now left.
  - exists limits. repeat split; assumption.
Defined.

Lemma total_amount_limit_decided_by_sum_witness :
  validate_transfer empty_env week_limit (week_payment 200) = Raise TypeError
  /\ (validate_transfer (week_env 200) week_limit (week_payment 200) = Ok tt
      <-> 500 <= 500).
Proof.
  split.
  - exact (proj1 (total_amount_limit_decided_by_sum demo_config empty_env
                    "Sempo Level 1: P7" GENERAL_PAYMENTS
                    (is_any_token_and_user_is_phone_but_not_kyc_verified holds_tier)
                    7 (inject_Z 500) matching_transfer_type_filter
                    (week_payment 200) reserve_token eq_refl) eq_refl).
  - refine (proj1 (proj2 (total_amount_limit_decided_by_sum demo_config
                    (week_env 200)
                    "Sempo Level 1: P7" GENERAL_PAYMENTS
                    (is_any_token_and_user_is_phone_but_not_kyc_verified holds_tier)
                    7 (inject_Z 500) matching_transfer_type_filter
                    (week_payment 200) reserve_token eq_refl) _)).
    vm_compute. discriminate.
Defined.

Lemma transfer_count_limit_decided_by_count_witness :
  validate_transfer (group_env 3 10 0) (group_count_limit 3)
    (group_withdrawal 10 0)
  = Raise (TransferCountLimitError 3 30 "FOO").
Proof.
  refine (proj2 (transfer_count_limit_decided_by_count (group_env 3 10 0)
                   "GE Liquid Token - Group Account User"
                   [AGENT_OUT_PAYMENT; RawType WITHDRAWAL]
                   (is_group_and_liquid_token holds_tier) 30 3
                   withdrawal_or_agent_out_and_not_excluded_filter
                   (group_withdrawal 10 0) foo_token eq_refl) _).
  vm_compute. reflexivity.
Defined.


Lemma longer_window_counts_more_witness :
  incl (prior_rows (week_env 200) 7 matching_transfer_type_filter
          (week_payment 200))
       (prior_rows (week_env 200) 30 matching_transfer_type_filter
          (week_payment 200))
  /\ prior_usage (week_env 200) 7 matching_transfer_type_filter
       (week_payment 200)
     <= prior_usage (week_env 200) 30 matching_transfer_type_filter
          (week_payment 200)
  /\ prior_count (week_env 200) 7 matching_transfer_type_filter
       (week_payment 200)
     <= prior_count (week_env 200) 30 matching_transfer_type_filter
          (week_payment 200).
Proof.
  apply (longer_window_counts_more (week_env 200) 7 30
           matching_transfer_type_filter (week_payment 200)).
  - lia.
  - intros row [<-|[<-|[<-|[]]]]; vm_compute; discriminate.
Defined.

Lemma single_application_one_kyc_level_witness :
  sender_user (payment_by individual_user) = Some individual_user
  /\ ~ (returns_truthy
          (is_any_token_and_user_is_kyc_verified holds_tier
             (payment_by individual_user))
        /\ returns_truthy
             (is_any_token_and_user_is_kyc_business_verified holds_tier
                (payment_by individual_user))).
Proof.
  split; [reflexivity|].
  apply (single_application_one_kyc_level holds_tier
           (payment_by individual_user) individual_user eq_refl).
  simpl. lia.
Defined.
